(** * Puppeteer-Automation: the process-execution and script-generation core

    A shallow embedding of [src/main.py]: the environment prober
    ([SystemManager]), the dependency installer, the script composer and the
    process runner ([PuppeteerManager]).

    Conventions.
    - A Python [str] is a Rocq [string] holding its UTF-8 encoding.
      Concatenation and interpolation commute with the encoding; the
      operations that look at code points ([len], [strip], [splitlines])
      decode first.
    - A Python [dict] literal is an association list in insertion order.
    - The module-level [CONFIG], the file system and the sequence of system
      calls issued so far form the [World] that every operation threads.
    - What the host answers to a system call (the outcome of a child process,
      a refused [open]) is a parameter, the [Host]. *)

From Stdlib Require Import ZArith NArith Ascii.
From stdpp Require Import strings gmap list pretty.

Local Open Scope Z_scope.

(** ** Python strings *)

Module PyStr.

(** The double-quote character, as a one-character string. *)
Definition dq : string := String (ascii_of_N 34) EmptyString.

(** The line feed, as a character and as a one-character string. *)
Definition LF : ascii := ascii_of_N 10.
Definition nl : string := String LF EmptyString.

(** A byte [10xxxxxx] continues a multi-byte UTF-8 sequence. *)
Definition is_cont (a : ascii) : bool :=
  let n := N_of_ascii a in ((128 <=? n) && (n <? 192))%N.

(** The characters of a string: every lead byte together with the
    continuation bytes that follow it. *)
Fixpoint chars (s : string) : list string :=
  match s with
  | EmptyString => []
  | String a s' =>
      let rest := chars s' in
      match rest with
      | c :: r =>
          match c with
          | String b _ =>
              if is_cont b then String a c :: r else String a EmptyString :: rest
          | EmptyString => String a EmptyString :: rest
          end
      | [] => [String a EmptyString]
      end
  end.

(** The payload bits of a lead byte. *)
Definition lead_bits (n : N) : N :=
  (if n <? 128 then n
   else if n <? 224 then n - 192
   else if n <? 240 then n - 224
   else n - 240)%N.

Fixpoint cont_bits (acc : N) (s : string) : N :=
  match s with
  | EmptyString => acc
  | String b s' => cont_bits (acc * 64 + (N_of_ascii b - 128))%N s'
  end.

(** The code point of one character. *)
Definition codepoint (c : string) : N :=
  match c with
  | EmptyString => 0%N
  | String a rest => cont_bits (lead_bits (N_of_ascii a)) rest
  end.

(** [len(s)]: the number of code points. *)
Definition len (s : string) : Z := Z.of_nat (length (chars s)).

(** [bool(s)]: a string is true when it is not empty. *)
Definition truthy (s : string) : bool :=
  match s with EmptyString => false | _ => true end.

(** [str.isspace] on one code point (the Unicode white space of CPython). *)
Definition is_space (n : N) : bool :=
  ((9 <=? n) && (n <=? 13) || (28 <=? n) && (n <=? 32)
   || (n =? 133) || (n =? 160) || (n =? 5760)
   || (8192 <=? n) && (n <=? 8202)
   || (n =? 8232) || (n =? 8233) || (n =? 8239) || (n =? 8287)
   || (n =? 12288))%N.

Fixpoint lstrip_chars (cs : list string) : list string :=
  match cs with
  | c :: r => if is_space (codepoint c) then lstrip_chars r else cs
  | [] => []
  end.

Definition join (cs : list string) : string :=
  fold_right String.append EmptyString cs.

(** [s.strip()]. *)
Definition strip (s : string) : string :=
  join (rev (lstrip_chars (rev (lstrip_chars (chars s))))).

(** [s.split('\n')]: the pieces between line feeds, never an empty list. *)
Fixpoint split_nl (s : string) : list string :=
  match s with
  | EmptyString => [EmptyString]
  | String a s' =>
      if Ascii.eqb a LF then EmptyString :: split_nl s'
      else match split_nl s' with
           | p :: r => String a p :: r
           | [] => [String a EmptyString]
           end
  end.

(** The line boundaries of [str.splitlines]. *)
Definition is_linebreak (n : N) : bool :=
  ((10 <=? n) && (n <=? 13) || (28 <=? n) && (n <=? 30)
   || (n =? 133) || (n =? 8232) || (n =? 8233))%N.

(** [len(s.splitlines())] over the code points of [s]; [open_line] tells
    whether characters were read since the last boundary.  A carriage return
    followed by a line feed is one boundary. *)
Fixpoint count_lines (open_line : bool) (cs : list N) : Z :=
  match cs with
  | [] => if open_line then 1 else 0
  | c :: r =>
      if is_linebreak c then
        match r with
        | d :: r' =>
            if ((c =? 13) && (d =? 10))%N then 1 + count_lines false r'
            else 1 + count_lines false r
        | [] => 1
        end
      else count_lines true r
  end.

Definition splitlines_len (s : string) : Z :=
  count_lines false (map codepoint (chars s)).

End PyStr.

(** ** Python values *)

(** The values that occur in the dictionaries the program builds.  A [dict]
    keeps its items in insertion order. *)
#[warnings="-register-all"]
Inductive pyval :=
| VNone
| VBool (b : bool)
| VInt (z : Z)
| VStr (s : string)
| VList (l : list pyval)
| VDict (d : list (string * pyval)).

Abbreviation pydict := (list (string * pyval)).

(** [d[k]] as a partial function, and [k in d]. *)
Fixpoint py_get (k : string) (d : pydict) : option pyval :=
  match d with
  | [] => None
  | (k', v) :: r => if String.eqb k k' then Some v else py_get k r
  end.

Definition has_key (k : string) (d : pydict) : bool :=
  match py_get k d with Some _ => true | None => false end.

(** ** Exceptions *)

(** [subprocess.TimeoutExpired], the other subclasses of [Exception], and the
    exceptions outside [Exception] ([KeyboardInterrupt], [SystemExit]), each
    with the text [str(e)] gives. *)
Inductive exn :=
| TimeoutExpired (msg : string)
| PyException (ty msg : string)
| PyBaseException (ty msg : string).

(** [str(e)] *)
Definition exn_str (e : exn) : string :=
  match e with
  | TimeoutExpired m | PyException _ m | PyBaseException _ m => m
  end.

(** [type(e).__name__] *)
Definition exn_type_name (e : exn) : string :=
  match e with
  | TimeoutExpired _ => "TimeoutExpired"
  | PyException ty _ | PyBaseException ty _ => ty
  end.

(** [isinstance(e, Exception)] *)
Definition is_Exception (e : exn) : bool :=
  match e with
  | TimeoutExpired _ | PyException _ _ => true
  | PyBaseException _ _ => false
  end.

Inductive result (A : Type) :=
| Ret (a : A)
| Raise (e : exn).
Arguments Ret {A} a.
Arguments Raise {A} e.

(** ** The world *)

(** [CONFIG], the module-level dictionary. *)
Record Config := {
  app_title : string;
  app_subtitle : string;
  timeout : Z;
  viewport : Z * Z;
  analysis_timeout : Z;
  installation_timeout : Z
}.

Definition CONFIG : Config := {|
  app_title := "🎓 Academic Browser Automation System";
  app_subtitle := "Demonstrating Modern Web Automation Principles";
  timeout := 300;
  viewport := (1280, 720);
  analysis_timeout := 45000;
  installation_timeout := 600
|}.

(** What a path of the file system names: a regular file or a directory.
    Symbolic and hard links are outside the model. *)
Inductive node :=
| File (content : string)
| Dir.

Definition is_file (o : option node) : bool :=
  match o with Some (File _) => true | _ => false end.

(** The system calls the program issues, in the order it issues them. *)
Inductive event :=
| EvWrite (path content : string)
| EvRun (argv : list string) (limit : option Z)
| EvRemove (path : string).

Record World := {
  config : Config;
  fs : gmap string node;
  trace : list event
}.

Definition with_fs (w : World) (f : gmap string node) : World :=
  {| config := config w; fs := f; trace := trace w |}.

Definition log (w : World) (e : event) : World :=
  {| config := config w; fs := fs w; trace := trace w ++ [e] |}.

(** [path] becomes a regular file holding [content]. *)
Definition put_file (w : World) (path content : string) : World :=
  with_fs w (<[path := File content]> (fs w)).

(** The world once a write of [content] to [path] was issued and went through. *)
Definition written (w : World) (path content : string) : World :=
  put_file (log w (EvWrite path content)) path content.

(** ** The host *)

(** [subprocess.CompletedProcess] with captured text streams. *)
Record CompletedProcess := {
  returncode : Z;
  stdout : string;
  stderr : string
}.

(** How writing a whole file ends: all of it stored, [open] refused, or an
    error after a part was stored. *)
Inductive write_outcome :=
| Written
| OpenRefused (e : exn)
| WriteFailed (stored : string) (e : exn).

(** The two failures of a file operation that the file system itself
    decides: the path is a directory, the path is missing. *)
Inductive os_failure :=
| IsDirectory
| NoSuchFile.

(** The answers of the operating system.
    - [os_error k path]: the type name and the text [str(e)] of the
      [OSError] raised for failure [k] at [path]; both depend on the platform
      ([IsADirectoryError] with [Errno 21] on POSIX, [PermissionError] on
      Windows).
    - [host_write path content w]: how writing the file ends.
    - [host_remove path w]: the exception with which the removal of a
      regular file is refused (permissions, a sticky directory, a lock), or
      [None] when it goes through.
    - [host_run argv limit w]: what
      [subprocess.run(argv, capture_output=True, text=True, timeout=limit)]
      does in world [w]: the completed process or the exception raised, and
      the file system the child leaves behind. *)
Record Host := {
  os_name : string;
  os_error : os_failure -> string -> string * string;
  host_write : string -> string -> World -> write_outcome;
  host_remove : string -> World -> option exn;
  host_run : list string -> option Z -> World ->
             result CompletedProcess * gmap string node
}.

(** The [OSError] of the platform for a failure at a path. *)
Definition os_exn (h : Host) (k : os_failure) (path : string) : exn :=
  PyException (fst (os_error h k path)) (snd (os_error h k path)).

(** ** Computations: state and exceptions *)

Definition M (A : Type) : Type := World -> result A * World.

Definition ret {A} (a : A) : M A := fun w => (Ret a, w).

Definition raise {A} (e : exn) : M A := fun w => (Raise e, w).

Definition bind {A B} (c : M A) (k : A -> M B) : M B :=
  fun w =>
    match c w with
    | (Ret a, w') => k a w'
    | (Raise e, w') => (Raise e, w')
    end.

Notation "x <- c ;; k" := (bind c (fun x => k))
  (at level 100, c at next level, right associativity).
Notation "c ;;; k" := (bind c (fun _ => k))
  (at level 100, right associativity).

(** [try: body  except <matching e>: handler e].  The handler answers [None]
    for an exception no [except] clause matches, which then propagates. *)
Definition try_except {A} (body : M A) (handler : exn -> option (M A)) : M A :=
  fun w =>
    match body w with
    | (Ret a, w') => (Ret a, w')
    | (Raise e, w') =>
        match handler e with
        | Some h => h w'
        | None => (Raise e, w')
        end
    end.

(** [try: body  finally: cleanup].  The cleanup runs on every way out of the
    body; the body's value or exception stands unless the cleanup raises. *)
Definition try_finally {A} (body : M A) (cleanup : M unit) : M A :=
  fun w =>
    let (r, w1) := body w in
    match cleanup w1 with
    | (Ret _, w2) => (r, w2)
    | (Raise e, w2) => (Raise e, w2)
    end.

(** A bare [except: pass]. *)
Definition swallow (body : M unit) : M unit :=
  try_except body (fun _ => Some (ret tt)).

Definition get_config : M Config := fun w => (Ret (config w), w).

(** ** System calls *)

Section SystemCalls.

Context (h : Host).

(** [with open(path, 'w', ...) as f: f.write(content)] *)
Definition write_file (path content : string) : M unit :=
  fun w =>
    let w1 := log w (EvWrite path content) in
    match fs w !! path with
    | Some Dir => (Raise (os_exn h IsDirectory path), w1)
    | _ =>
        match host_write h path content w with
        | Written => (Ret tt, written w path content)
        | OpenRefused e => (Raise e, w1)
        | WriteFailed part e => (Raise e, put_file w1 path part)
        end
    end.

(** [subprocess.run(argv, capture_output=True, text=True, timeout=limit)] *)
Definition subprocess_run (argv : list string) (limit : option Z)
  : M CompletedProcess :=
  fun w =>
    let (r, f) := host_run h argv limit w in
    (r, with_fs (log w (EvRun argv limit)) f).

(** [os.remove(path)]: unlinks a regular file unless the host refuses,
    raises on a missing path and on a directory. *)
Definition os_remove (path : string) : M unit :=
  fun w =>
    let w1 := log w (EvRemove path) in
    match fs w !! path with
    | Some (File _) =>
        match host_remove h path w with
        | Some e => (Raise e, w1)
        | None => (Ret tt, with_fs w1 (delete path (fs w)))
        end
    | Some Dir => (Raise (os_exn h IsDirectory path), w1)
    | None => (Raise (os_exn h NoSuchFile path), w1)
    end.

(** [Path(path).exists()], for a working directory that can be searched:
    the check answers from the file system.  (An [OSError] of the check
    itself is outside this model.) *)
Definition path_exists (path : string) : M bool :=
  fun w => (Ret (bool_decide (is_Some (fs w !! path))), w).

End SystemCalls.

(** ** [json.dump(obj, f, indent=2)] *)

Module Json.

Definition hex_digit (n : N) : ascii :=
  if (n <? 10)%N then ascii_of_N (48 + n) else ascii_of_N (87 + n).

(** Four lower-case hexadecimal digits. *)
Definition hex4 (n : N) : string :=
  String (hex_digit ((n / 4096) mod 16)%N)
    (String (hex_digit ((n / 256) mod 16)%N)
       (String (hex_digit ((n / 16) mod 16)%N)
          (String (hex_digit (n mod 16)%N) EmptyString))).

Definition u_escape (n : N) : string := "\u" +:+ hex4 n.

(** One character of a string literal with [ensure_ascii]: printable ASCII
    stands for itself, the rest is escaped, above the basic plane as a
    surrogate pair. *)
Definition escape_char (c : string) : string :=
  let n := PyStr.codepoint c in
  if (n =? 34)%N then "\" +:+ PyStr.dq
  else if (n =? 92)%N then "\\"
  else if (n =? 10)%N then "\n"
  else if (n =? 13)%N then "\r"
  else if (n =? 9)%N then "\t"
  else if (n =? 8)%N then "\b"
  else if (n =? 12)%N then "\f"
  else if ((32 <=? n) && (n <=? 126))%N then c
  else if (n <? 65536)%N then u_escape n
  else
    let v := (n - 65536)%N in
    u_escape (55296 + v / 1024)%N +:+ u_escape (56320 + v mod 1024)%N.

Definition quote (s : string) : string :=
  PyStr.dq +:+ PyStr.join (map escape_char (PyStr.chars s)) +:+ PyStr.dq.

Fixpoint spaces (n : nat) : string :=
  match n with
  | O => EmptyString
  | S n' => String " "%char (spaces n')
  end.

Section Dumps.

Context (indent : nat).

Definition newline_indent (lvl : nat) : string :=
  PyStr.nl +:+ spaces (indent * lvl).

Fixpoint dumps (lvl : nat) (v : pyval) {struct v} : string :=
  match v with
  | VNone => "null"
  | VBool true => "true"
  | VBool false => "false"
  | VInt z => pretty z
  | VStr s => quote s
  | VList [] => "[]"
  | VList l =>
      "[" +:+ newline_indent (S lvl)
      +:+ (fix items (l : list pyval) : string :=
             match l with
             | [] => EmptyString
             | x :: r =>
                 match r with
                 | [] => dumps (S lvl) x
                 | _ => dumps (S lvl) x +:+ "," +:+ newline_indent (S lvl)
                        +:+ items r
                 end
             end) l
      +:+ newline_indent lvl +:+ "]"
  | VDict [] => "{}"
  | VDict d =>
      "{" +:+ newline_indent (S lvl)
      +:+ (fix items (d : list (string * pyval)) : string :=
             match d with
             | [] => EmptyString
             | (k, x) :: r =>
                 match r with
                 | [] => quote k +:+ ": " +:+ dumps (S lvl) x
                 | _ => quote k +:+ ": " +:+ dumps (S lvl) x +:+ ","
                        +:+ newline_indent (S lvl) +:+ items r
                 end
             end) d
      +:+ newline_indent lvl +:+ "}"
  end.

End Dumps.

End Json.

(** ** class SystemManager *)

Module SystemManager.

Section WithHost.

Context (h : Host).

(** ['where' if os.name == 'nt' else 'which'] *)
Definition discovery_command : string :=
  if String.eqb (os_name h) "nt" then "where" else "which".

(** [l[0]] *)
Definition item0 (l : list string) : M string :=
  match l with
  | x :: _ => ret x
  | [] => raise (PyException "IndexError" "list index out of range")
  end.

(** One of the two guarded queries of [find_executables]: the local
    starts as [None] and is assigned as the last step of the [try] body;
    the bare [except: pass] leaves it as it is. *)
Definition locate (prog : string) : M (option string) :=
  try_except
    (result <- subprocess_run h [discovery_command; prog] None ;;
     if returncode result =? 0 then
       p <- item0 (PyStr.split_nl (PyStr.strip (stdout result))) ;;
       ret (Some p)
     else ret None)
    (fun _ => Some (ret None)).

Definition find_executables : M (option string * option string) :=
  node_path <- locate "node" ;;
  npm_path <- locate "npm" ;;
  ret (node_path, npm_path).

(** [not node_path] for an optional string. *)
Definition falsy (o : option string) : bool :=
  match o with
  | Some s => negb (PyStr.truthy s)
  | None => true
  end.

Definition validate_environment
  : M (bool * option string * option string) :=
  paths <- find_executables ;;
  let node_path := fst paths in
  let npm_path := snd paths in
  if falsy node_path then ret (false, None, None)
  else
    try_except
      (result <- subprocess_run h [default EmptyString node_path; "--version"]
                   (Some 10) ;;
       ret (returncode result =? 0, node_path, npm_path))
      (fun _ => Some (ret (false, None, None))).

End WithHost.

End SystemManager.

(** ** class PuppeteerManager *)

Module PuppeteerManager.

Import PyStr.

(** *** The manifest *)

Definition package_config : pyval :=
  VDict [
    ("name", VStr "academic-browser-automation");
    ("version", VStr "1.0.0");
    ("description",
      VStr "Academic demonstration of browser automation with detailed analysis");
    ("main", VStr "index.js");
    ("dependencies", VDict [("puppeteer", VStr "^21.0.0")]);
    ("devDependencies", VDict []);
    ("scripts", VDict [("test", VStr "node test.js")]);
    ("keywords",
      VList [VStr "automation"; VStr "academic"; VStr "browser"; VStr "research"]);
    ("author", VStr "Academic Project");
    ("license", VStr "MIT")
  ].

(** *** The script templates

    The pieces of the string literals of [create_script], cut where a value
    is interpolated.  In the formatted literals the doubled braces of the
    source stand for single ones, as here. *)

(** The prologue shared by every script: load the library, open the
    failure handler, launch the browser and open a page. *)
Definition base_config : string :=
  "
        const puppeteer = require('puppeteer');
        const delay = ms => new Promise(resolve => setTimeout(resolve, ms));
        
        (async () => {
            try {
                console.log('🚀 Initializing browser automation...');
                
                const browser = await puppeteer.launch({
                    headless: false,
                    defaultViewport: { width: 1280, height: 720 },
                    args: ['--no-sandbox', '--disable-setuid-sandbox']
                });
                
                const page = await browser.newPage();
        ".

(** The body of the [demo] action, up to the navigation timeout. *)
Definition demo_body_1 : string :=
  "
                console.log('📖 Academic Demo: Comprehensive Research Portal Analysis...');
                await page.goto('https://scholar.google.com', { 
                    waitUntil: 'networkidle2', timeout: ".

(** The body of the [demo] action, after the navigation timeout. *)
Definition demo_body_2 : string :=
  "
                });
                
                // Comprehensive page analysis
                console.log('🔍 Performing detailed page analysis...');
                const analysis = await page.evaluate(() => {
                    const getTextContent = (selector) => {
                        const el = document.querySelector(selector);
                        return el ? el.textContent.trim() : 'Not found';
                    };
                    
                    const countElements = (selector) => document.querySelectorAll(selector).length;
                    
                    return {
                        // Basic metadata
                        title: document.title,
                        url: window.location.href,
                        charset: document.characterSet,
                        lastModified: document.lastModified,
                        
                        // Content analysis
                        totalLinks: countElements('a'),
                        externalLinks: Array.from(document.querySelectorAll('a')).filter(a => 
                            a.href && !a.href.includes(window.location.hostname)).length,
                        images: countElements('img'),
                        forms: countElements('form'),
                        buttons: countElements('button'),
                        inputs: countElements('input'),
                        
                        // Structure analysis
                        headings: {
                            h1: countElements('h1'),
                            h2: countElements('h2'),
                            h3: countElements('h3'),
                            h4: countElements('h4'),
                            h5: countElements('h5'),
                            h6: countElements('h6')
                        },
                        
                        // Content metrics
                        textLength: document.body.innerText.length,
                        wordCount: document.body.innerText.split(/\s+/).length,
                        paragraphs: countElements('p'),
                        lists: countElements('ul, ol'),
                        tables: countElements('table'),
                        
                        // Technical analysis
                        hasServiceWorker: 'serviceWorker' in navigator,
                        hasLocalStorage: typeof(Storage) !== " +:+ dq +:+ "undefined" +:+ dq +:+ ",
                        viewportWidth: window.innerWidth,
                        viewportHeight: window.innerHeight,
                        
                        // Performance hints
                        loadTime: performance.timing.loadEventEnd - performance.timing.navigationStart,
                        domElements: document.getElementsByTagName('*').length
                    };
                });
                
                // Display comprehensive analysis
                console.log('📊 COMPREHENSIVE WEBSITE ANALYSIS REPORT');
                console.log('=' .repeat(50));
                console.log(`📝 Title: ${analysis.title}`);
                console.log(`🌐 URL: ${analysis.url}`);
                console.log(`📅 Last Modified: ${analysis.lastModified}`);
                console.log(`⚡ Load Time: ${analysis.loadTime}ms`);
                console.log('');
                
                console.log('🔗 LINK ANALYSIS:');
                console.log(`   Total Links: ${analysis.totalLinks}`);
                console.log(`   External Links: ${analysis.externalLinks}`);
                console.log(`   Internal Links: ${analysis.totalLinks - analysis.externalLinks}`);
                console.log('');
                
                console.log('🏗️ STRUCTURE ANALYSIS:');
                console.log(`   H1 Headings: ${analysis.headings.h1}`);
                console.log(`   H2 Headings: ${analysis.headings.h2}`);
                console.log(`   H3 Headings: ${analysis.headings.h3}`);
                console.log(`   Total DOM Elements: ${analysis.domElements}`);
                console.log(`   Paragraphs: ${analysis.paragraphs}`);
                console.log(`   Lists: ${analysis.lists}`);
                console.log(`   Tables: ${analysis.tables}`);
                console.log('');
                
                console.log('📝 CONTENT METRICS:');
                console.log(`   Text Length: ${analysis.textLength.toLocaleString()} characters`);
                console.log(`   Word Count: ${analysis.wordCount.toLocaleString()} words`);
                console.log(`   Images: ${analysis.images}`);
                console.log('');
                
                console.log('⚙️ INTERACTIVE ELEMENTS:');
                console.log(`   Forms: ${analysis.forms}`);
                console.log(`   Buttons: ${analysis.buttons}`);
                console.log(`   Input Fields: ${analysis.inputs}`);
                console.log('');
                
                console.log('🖥️ TECHNICAL DETAILS:');
                console.log(`   Viewport: ${analysis.viewportWidth}x${analysis.viewportHeight}`);
                console.log(`   Character Set: ${analysis.charset}`);
                console.log(`   Service Worker: ${analysis.hasServiceWorker ? 'Available' : 'Not Available'}`);
                console.log(`   Local Storage: ${analysis.hasLocalStorage ? 'Available' : 'Not Available'}`);
                console.log('');
                
                // Take screenshot with timestamp
                const timestamp = new Date().toISOString().replace(/[:.]/g, '-');
                const screenshotPath = `academic_demo_${timestamp}.png`;
                await page.screenshot({ 
                    path: screenshotPath, 
                    fullPage: true,
                    type: 'png'
                });
                console.log(`📸 Full-page screenshot saved: ${screenshotPath}`);
                
                // Generate summary report
                const efficiency = analysis.textLength / analysis.domElements;
                const linkDensity = (analysis.totalLinks / analysis.wordCount * 100).toFixed(2);
                
                console.log('📈 EFFICIENCY METRICS:');
                console.log(`   Content Efficiency: ${efficiency.toFixed(2)} chars/element`);
                console.log(`   Link Density: ${linkDensity}% (links per 100 words)`);
                console.log(`   Heading Structure: ${analysis.headings.h1 > 0 ? 'Good' : 'Missing H1'}`);
                
                await delay(5000);
                await browser.close();
                console.log('✅ Comprehensive academic demo completed successfully');
            ".

(** The body of the [research] action, up to the interpolated URL: it ends
    with the quote that opens the JavaScript string literal. *)
Definition research_body_1 : string :=
  "
                const url = '".

(** The body of the [research] action, from the quote that closes the URL
    literal to the navigation timeout. *)
Definition research_body_2 : string :=
  "';
                console.log(`🔬 ADVANCED RESEARCH MODE: Deep Analysis of ${url}`);
                console.log('=' .repeat(60));
                
                // Navigate with extended timeout
                await page.goto(url, { 
                    waitUntil: 'networkidle2', 
                    timeout: ".

(** The body of the [research] action, after the navigation timeout. *)
Definition research_body_3 : string :=
  "
                });
                
                console.log('⏱️ Page loaded, beginning comprehensive analysis...');
                
                // Advanced metrics collection
                const detailedMetrics = await page.evaluate(() => {
                    // Helper functions
                    const getTextContent = (selector) => {
                        const el = document.querySelector(selector);
                        return el ? el.textContent.trim() : null;
                    };
                    
                    const countElements = (selector) => document.querySelectorAll(selector).length;
                    
                    const getMetaTags = () => {
                        const metas = {};
                        document.querySelectorAll('meta').forEach(meta => {
                            const name = meta.getAttribute('name') || meta.getAttribute('property');
                            if (name) metas[name] = meta.getAttribute('content');
                        });
                        return metas;
                    };
                    
                    const analyzeColors = () => {
                        const styles = window.getComputedStyle(document.body);
                        return {
                            backgroundColor: styles.backgroundColor,
                            color: styles.color,
                            fontFamily: styles.fontFamily,
                            fontSize: styles.fontSize
                        };
                    };
                    
                    const checkAccessibility = () => {
                        return {
                            hasAltTexts: Array.from(document.querySelectorAll('img')).every(img => img.alt),
                            hasAriaLabels: countElements('[aria-label]'),
                            hasHeadingStructure: countElements('h1') > 0,
                            hasLangAttribute: document.documentElement.hasAttribute('lang'),
                            focusableElements: countElements('a, button, input, select, textarea, [tabindex]')
                        };
                    };
                    
                    return {
                        // Basic Information
                        basic: {
                            title: document.title,
                            url: window.location.href,
                            domain: window.location.hostname,
                            protocol: window.location.protocol,
                            charset: document.characterSet,
                            language: document.documentElement.lang || 'Not specified',
                            lastModified: document.lastModified
                        },
                        
                        // Content Analysis
                        content: {
                            textLength: document.body.innerText.length,
                            wordCount: document.body.innerText.split(/\s+/).filter(word => word.length > 0).length,
                            readingTime: Math.ceil(document.body.innerText.split(/\s+/).length / 200), // avg 200 wpm
                            totalLinks: countElements('a'),
                            externalLinks: Array.from(document.querySelectorAll('a')).filter(a => 
                                a.href && !a.href.includes(window.location.hostname)).length,
                            images: countElements('img'),
                            videos: countElements('video'),
                            audios: countElements('audio')
                        },
                        
                        // Structure Analysis
                        structure: {
                            headings: {
                                h1: countElements('h1'),
                                h2: countElements('h2'),
                                h3: countElements('h3'),
                                h4: countElements('h4'),
                                h5: countElements('h5'),
                                h6: countElements('h6')
                            },
                            lists: countElements('ul, ol'),
                            tables: countElements('table'),
                            forms: countElements('form'),
                            buttons: countElements('button'),
                            inputs: countElements('input'),
                            paragraphs: countElements('p'),
                            divs: countElements('div'),
                            spans: countElements('span')
                        },
                        
                        // Technical Analysis
                        technical: {
                            totalElements: document.querySelectorAll('*').length,
                            scripts: countElements('script'),
                            stylesheets: countElements('link[rel=" +:+ dq +:+ "stylesheet" +:+ dq +:+ "]'),
                            hasServiceWorker: 'serviceWorker' in navigator,
                            hasWebGL: !!window.WebGLRenderingContext,
                            hasGeolocation: 'geolocation' in navigator,
                            hasLocalStorage: typeof(Storage) !== " +:+ dq +:+ "undefined" +:+ dq +:+ ",
                            viewportWidth: window.innerWidth,
                            viewportHeight: window.innerHeight,
                            screenWidth: window.screen.width,
                            screenHeight: window.screen.height
                        },
                        
                        // Performance Metrics
                        performance: {
                            loadTime: performance.timing.loadEventEnd - performance.timing.navigationStart,
                            domContentLoaded: performance.timing.domContentLoadedEventEnd - performance.timing.navigationStart,
                            firstPaint: performance.getEntriesByType('paint').find(p => p.name === 'first-paint')?.startTime || 'N/A',
                            firstContentfulPaint: performance.getEntriesByType('paint').find(p => p.name === 'first-contentful-paint')?.startTime || 'N/A'
                        },
                        
                        // SEO Analysis
                        seo: {
                            metaTags: getMetaTags(),
                            hasTitle: !!document.title,
                            titleLength: document.title.length,
                            hasMetaDescription: !!document.querySelector('meta[name=" +:+ dq +:+ "description" +:+ dq +:+ "]'),
                            hasCanonical: !!document.querySelector('link[rel=" +:+ dq +:+ "canonical" +:+ dq +:+ "]'),
                            hasRobots: !!document.querySelector('meta[name=" +:+ dq +:+ "robots" +:+ dq +:+ "]'),
                            structuredData: countElements('script[type=" +:+ dq +:+ "application/ld+json" +:+ dq +:+ "]')
                        },
                        
                        // Design Analysis
                        design: analyzeColors(),
                        
                        // Accessibility Check
                        accessibility: checkAccessibility()
                    };
                });
                
                // Generate comprehensive report
                console.log('📊 DETAILED RESEARCH ANALYSIS REPORT');
                console.log('=' .repeat(60));
                
                // Basic Information
                console.log('📋 BASIC INFORMATION:');
                console.log(`   Title: ${detailedMetrics.basic.title}`);
                console.log(`   Domain: ${detailedMetrics.basic.domain}`);
                console.log(`   Protocol: ${detailedMetrics.basic.protocol}`);
                console.log(`   Language: ${detailedMetrics.basic.language}`);
                console.log(`   Character Set: ${detailedMetrics.basic.charset}`);
                console.log(`   Last Modified: ${detailedMetrics.basic.lastModified}`);
                console.log('');
                
                // Content Metrics
                console.log('📝 CONTENT ANALYSIS:');
                console.log(`   Word Count: ${detailedMetrics.content.wordCount.toLocaleString()} words`);
                console.log(`   Character Count: ${detailedMetrics.content.textLength.toLocaleString()} characters`);
                console.log(`   Estimated Reading Time: ${detailedMetrics.content.readingTime} minutes`);
                console.log(`   Total Links: ${detailedMetrics.content.totalLinks}`);
                console.log(`   External Links: ${detailedMetrics.content.externalLinks}`);
                console.log(`   Internal Links: ${detailedMetrics.content.totalLinks - detailedMetrics.content.externalLinks}`);
                console.log(`   Images: ${detailedMetrics.content.images}`);
                console.log(`   Videos: ${detailedMetrics.content.videos}`);
                console.log(`   Audio Elements: ${detailedMetrics.content.audios}`);
                console.log('');
                
                // Structure Analysis
                console.log('🏗️ STRUCTURE ANALYSIS:');
                console.log(`   H1 Tags: ${detailedMetrics.structure.headings.h1}`);
                console.log(`   H2 Tags: ${detailedMetrics.structure.headings.h2}`);
                console.log(`   H3 Tags: ${detailedMetrics.structure.headings.h3}`);
                console.log(`   Total Headings: ${Object.values(detailedMetrics.structure.headings).reduce((a,b) => a+b, 0)}`);
                console.log(`   Paragraphs: ${detailedMetrics.structure.paragraphs}`);
                console.log(`   Lists: ${detailedMetrics.structure.lists}`);
                console.log(`   Tables: ${detailedMetrics.structure.tables}`);
                console.log(`   Forms: ${detailedMetrics.structure.forms}`);
                console.log(`   Interactive Elements: ${detailedMetrics.structure.buttons + detailedMetrics.structure.inputs}`);
                console.log('');
                
                // Technical Analysis
                console.log('⚙️ TECHNICAL ANALYSIS:');
                console.log(`   Total DOM Elements: ${detailedMetrics.technical.totalElements.toLocaleString()}`);
                console.log(`   JavaScript Files: ${detailedMetrics.technical.scripts}`);
                console.log(`   CSS Stylesheets: ${detailedMetrics.technical.stylesheets}`);
                console.log(`   Viewport: ${detailedMetrics.technical.viewportWidth}x${detailedMetrics.technical.viewportHeight}`);
                console.log(`   Screen Resolution: ${detailedMetrics.technical.screenWidth}x${detailedMetrics.technical.screenHeight}`);
                console.log(`   Modern Features:`);
                console.log(`     - Service Worker: ${detailedMetrics.technical.hasServiceWorker ? '✅' : '❌'}`);
                console.log(`     - WebGL: ${detailedMetrics.technical.hasWebGL ? '✅' : '❌'}`);
                console.log(`     - Geolocation: ${detailedMetrics.technical.hasGeolocation ? '✅' : '❌'}`);
                console.log(`     - Local Storage: ${detailedMetrics.technical.hasLocalStorage ? '✅' : '❌'}`);
                console.log('');
                
                // Performance Metrics
                console.log('⚡ PERFORMANCE METRICS:');
                console.log(`   Total Load Time: ${detailedMetrics.performance.loadTime}ms`);
                console.log(`   DOM Content Loaded: ${detailedMetrics.performance.domContentLoaded}ms`);
                console.log(`   First Paint: ${detailedMetrics.performance.firstPaint}ms`);
                console.log(`   First Contentful Paint: ${detailedMetrics.performance.firstContentfulPaint}ms`);
                console.log('');
                
                // SEO Analysis
                console.log('🔍 SEO ANALYSIS:');
                console.log(`   Page Title: ${detailedMetrics.seo.hasTitle ? '✅' : '❌'} (${detailedMetrics.seo.titleLength} chars)`);
                console.log(`   Meta Description: ${detailedMetrics.seo.hasMetaDescription ? '✅' : '❌'}`);
                console.log(`   Canonical URL: ${detailedMetrics.seo.hasCanonical ? '✅' : '❌'}`);
                console.log(`   Robots Meta: ${detailedMetrics.seo.hasRobots ? '✅' : '❌'}`);
                console.log(`   Structured Data: ${detailedMetrics.seo.structuredData} schemas found`);
                console.log('');
                
                // Accessibility Analysis
                console.log('♿ ACCESSIBILITY ANALYSIS:');
                console.log(`   Alt Text Coverage: ${detailedMetrics.accessibility.hasAltTexts ? '✅ Complete' : '❌ Incomplete'}`);
                console.log(`   ARIA Labels: ${detailedMetrics.accessibility.hasAriaLabels} elements`);
                console.log(`   Heading Structure: ${detailedMetrics.accessibility.hasHeadingStructure ? '✅ Present' : '❌ Missing'}`);
                console.log(`   Language Attribute: ${detailedMetrics.accessibility.hasLangAttribute ? '✅ Present' : '❌ Missing'}`);
                console.log(`   Focusable Elements: ${detailedMetrics.accessibility.focusableElements}`);
                console.log('');
                
                // Calculate quality scores
                const contentQuality = Math.min(100, (detailedMetrics.content.wordCount / 10));
                const structureQuality = Math.min(100, (Object.values(detailedMetrics.structure.headings).reduce((a,b) => a+b, 0) * 10));
                const seoQuality = [
                    detailedMetrics.seo.hasTitle,
                    detailedMetrics.seo.hasMetaDescription,
                    detailedMetrics.seo.titleLength > 10 && detailedMetrics.seo.titleLength < 60
                ].filter(Boolean).length * 33.33;
                
                console.log('📈 QUALITY SCORES:');
                console.log(`   Content Quality: ${contentQuality.toFixed(1)}%`);
                console.log(`   Structure Quality: ${structureQuality.toFixed(1)}%`);
                console.log(`   SEO Quality: ${seoQuality.toFixed(1)}%`);
                console.log(`   Performance Score: ${detailedMetrics.performance.loadTime < 3000 ? '✅ Good' : '⚠️ Needs Improvement'}`);
                
                await delay(3000);
                await browser.close();
                console.log('🎯 Advanced research analysis completed successfully');
            ".

(** The body of every other action. *)
Definition default_body : string :=
  "
                console.log('📖 Default demo mode');
                await page.goto('https://example.com');
                await delay(2000);
                await browser.close();
            ".

(** The failure handler that closes every script. *)
Definition script_epilogue : string :=
  "
} catch(error) { console.error('❌ Error:', error.message); process.exit(1); } })();".

(** *** create_script *)

(** [kwargs.get("url", "https://example.com")] *)
Definition url_of (kwargs : gmap string string) : string :=
  default "https://example.com" (kwargs !! "url").

(** The formatted literal of the [research] branch. *)
Definition research_body (cfg : Config) (url : string) : string :=
  research_body_1 +:+ url +:+ research_body_2
  +:+ pretty (analysis_timeout cfg) +:+ research_body_3.

Definition create_script (cfg : Config) (action : string)
    (kwargs : gmap string string) : string :=
  let script_body :=
    if String.eqb action "demo" then
      demo_body_1 +:+ pretty (analysis_timeout cfg) +:+ demo_body_2
    else if String.eqb action "research" then
      research_body cfg (url_of kwargs)
    else default_body in
  (base_config +:+ script_body) +:+ script_epilogue.

(** *** ensure_installation and execute_script *)

Definition script_file : string := "temp_automation.js".

Section WithHost.

Context (h : Host).

Definition ensure_installation (npm_path : string) : M pydict :=
  present <- path_exists "node_modules" ;;
  if (present : bool) then
    ret [("success", VBool true);
         ("message", VStr "Dependencies already installed")]
  else
    try_except
      (write_file h "package.json" (Json.dumps 2 0 package_config) ;;;
       cfg <- get_config ;;
       result <- subprocess_run h [npm_path; "install"]
                   (Some (installation_timeout cfg)) ;;
       ret [("success", VBool (returncode result =? 0));
            ("message",
              VStr (if returncode result =? 0 then "Installation successful"
                    else stderr result));
            ("details",
              VDict [("stdout", VStr (stdout result));
                     ("stderr", VStr (stderr result));
                     ("return_code", VInt (returncode result))])])
      (fun e =>
         if is_Exception e then
           Some (ret [("success", VBool false);
                      ("message", VStr (exn_str e));
                      ("details", VDict [("error", VStr (exn_str e))])])
         else None).

(** The dictionary returned on normal completion. *)
Definition completed_result (result : CompletedProcess) : pydict :=
  [("success", VBool (returncode result =? 0));
   ("output", VStr (stdout result));
   ("error", if truthy (stderr result) then VStr (stderr result) else VNone);
   ("return_code", VInt (returncode result));
   ("execution_time", VStr "Completed within timeout");
   ("details",
     VDict [("stdout_lines",
              VInt (if truthy (stdout result)
                    then splitlines_len (stdout result) else 0));
            ("stderr_lines",
              VInt (if truthy (stderr result)
                    then splitlines_len (stderr result) else 0));
            ("total_output_chars",
              VInt (len (stdout result)
                    + len (if truthy (stderr result) then stderr result
                           else EmptyString)))])].

(** The dictionary returned by [except subprocess.TimeoutExpired]. *)
Definition timeout_result (cfg : Config) : pydict :=
  [("success", VBool false);
   ("error",
     VStr ("Execution timeout after " +:+ pretty (timeout cfg)
           +:+ " seconds - process was terminated for safety"));
   ("execution_time",
     VStr ("Exceeded " +:+ pretty (timeout cfg) +:+ "s timeout"));
   ("details",
     VDict [("timeout_reason",
              VStr "Process took longer than expected - may indicate network issues or complex page loading")])].

(** The dictionary returned by [except Exception as e]. *)
Definition error_result (e : exn) : pydict :=
  [("success", VBool false);
   ("error", VStr ("Execution error: " +:+ exn_str e));
   ("details",
     VDict [("exception_type", VStr (exn_type_name e));
            ("exception_message", VStr (exn_str e))])].

(** The [try] body of [execute_script]. *)
Definition run_script (node_path script : string) : M pydict :=
  write_file h script_file script ;;;
  cfg <- get_config ;;
  result <- subprocess_run h [node_path; script_file] (Some (timeout cfg)) ;;
  ret (completed_result result).

(** Its [except] clauses, in the order of the source. *)
Definition on_exception (e : exn) : option (M pydict) :=
  match e with
  | TimeoutExpired _ => Some (cfg <- get_config ;; ret (timeout_result cfg))
  | PyException _ _ => Some (ret (error_result e))
  | PyBaseException _ _ => None
  end.

Definition execute_script (node_path script : string) : M pydict :=
  try_finally
    (try_except (run_script node_path script) on_exception)
    (swallow (os_remove h script_file)).

End WithHost.

End PuppeteerManager.

(** ** The quoting of the target language *)

Module JsLex.

Definition quote : ascii := "'"%char.
Definition backslash : ascii := "\"%char.
Definition CR : ascii := ascii_of_N 13.

(** The rest of a single-quoted JavaScript string literal, read from just
    after its opening quote: the source text of the literal up to the closing
    quote, and the program text after that quote.  A backslash takes the next
    character with it, and a carriage return with the line feed after it (one
    line continuation); a line feed or carriage return outside an escape, or
    the end of the text, leaves the literal unterminated.  Whether an escape
    is a well-formed one is not looked at: the scan finds where the literal
    ends. *)
Fixpoint single_quoted (s : string) : option (string * string) :=
  match s with
  | EmptyString => None
  | String a s' =>
      if Ascii.eqb a quote then Some (EmptyString, s')
      else if Ascii.eqb a PyStr.LF || Ascii.eqb a CR then None
      else if Ascii.eqb a backslash then
        match s' with
        | EmptyString => None
        | String b s'' =>
            match s'' with
            | String c s3 =>
                if Ascii.eqb b CR && Ascii.eqb c PyStr.LF then
                  match single_quoted s3 with
                  | Some (body, rest) =>
                      Some (String a (String b (String c body)), rest)
                  | None => None
                  end
                else
                  match single_quoted s'' with
                  | Some (body, rest) => Some (String a (String b body), rest)
                  | None => None
                  end
            | EmptyString => None
            end
        end
      else
        match single_quoted s' with
        | Some (body, rest) => Some (String a body, rest)
        | None => None
        end
  end.

(** The characters that end or escape inside such a literal. *)
Definition special (a : ascii) : bool :=
  Ascii.eqb a quote || Ascii.eqb a backslash
  || Ascii.eqb a PyStr.LF || Ascii.eqb a CR.

Fixpoint plain (s : string) : bool :=
  match s with
  | EmptyString => true
  | String a s' => negb (special a) && plain s'
  end.

Fixpoint contains (c : ascii) (s : string) : bool :=
  match s with
  | EmptyString => false
  | String a s' => Ascii.eqb a c || contains c s'
  end.

Fixpoint skip (n : nat) (s : string) : string :=
  match n, s with
  | S n', String _ s' => skip n' s'
  | _, _ => s
  end.

(** The literal that [const url = '] opens in a script of the [research]
    action: the script is read from just after that quote. *)
Definition url_literal (script : string) : option (string * string) :=
  single_quoted
    (skip (String.length (PuppeteerManager.base_config
                          +:+ PuppeteerManager.research_body_1)) script).

(** The URL stays inside its quotes: the literal opened for it holds the URL
    and nothing else. *)
Definition url_stays_quoted (cfg : Config) (url : string) : Prop :=
  exists rest,
    url_literal (PuppeteerManager.create_script cfg "research" {["url" := url]})
    = Some (url, rest).

End JsLex.

(** ** Sequences of calls *)

(** The public operations, as the user interface calls them. *)
Inductive call :=
| FindExecutables
| ValidateEnvironment
| EnsureInstallation (npm_path : string)
| CreateScript (action : string) (kwargs : gmap string string)
| ExecuteScript (node_path script : string).

(** What a call hands back. *)
Inductive answer :=
| Paths (p : result (option string * option string))
| Health (v : result (bool * option string * option string))
| Outcome (d : result pydict)
| Script (text : string).

Definition perform (h : Host) (c : call) (w : World) : answer * World :=
  match c with
  | FindExecutables =>
      let (r, w') := SystemManager.find_executables h w in (Paths r, w')
  | ValidateEnvironment =>
      let (r, w') := SystemManager.validate_environment h w in (Health r, w')
  | EnsureInstallation npm_path =>
      let (r, w') := PuppeteerManager.ensure_installation h npm_path w in
      (Outcome r, w')
  | CreateScript action kwargs =>
      (Script (PuppeteerManager.create_script (config w) action kwargs), w)
  | ExecuteScript node_path script =>
      let (r, w') := PuppeteerManager.execute_script h node_path script w in
      (Outcome r, w')
  end.

Fixpoint perform_all (h : Host) (cs : list call) (w : World) : World :=
  match cs with
  | [] => w
  | c :: r => perform_all h r (snd (perform h c w))
  end.

(** The events a computation adds to the trace of [w]. *)
Definition issued {A} (c : M A) (w : World) : list event :=
  drop (length (trace w)) (trace (snd (c w))).

(** The paths a list of events writes to. *)
Fixpoint written_paths (evs : list event) : list string :=
  match evs with
  | [] => []
  | EvWrite p _ :: r => p :: written_paths r
  | _ :: r => written_paths r
  end.

(** Whether a list of events starts a child process. *)
Fixpoint spawns (evs : list event) : bool :=
  match evs with
  | [] => false
  | EvRun _ _ :: _ => true
  | _ :: r => spawns r
  end.

(** The discovery query for [prog] fails in world [w]: the discovery command
    raises or ends with a non-zero status. *)
Definition query_fails (h : Host) (prog : string) (w : World) : Prop :=
  match fst (host_run h [SystemManager.discovery_command h; prog] None w) with
  | Ret cp => returncode cp ≠ 0
  | Raise _ => True
  end.

(** A computation that leaves [CONFIG] as it found it. *)
Definition keeps_config {A} (c : M A) : Prop :=
  forall w, config (snd (c w)) = config w.

(** The fields of an execution result: the four top-level entries and the
    three output statistics under [details]. *)
Definition result_fields : list string :=
  ["success"; "output"; "error"; "return_code"].

Definition statistics_fields : list string :=
  ["stdout_lines"; "stderr_lines"; "total_output_chars"].

Definition has_all_fields (d : pydict) : bool :=
  forallb (fun k => has_key k d) result_fields
  && match py_get "details" d with
     | Some (VDict stats) => forallb (fun k => has_key k stats) statistics_fields
     | _ => false
     end.

(** ** Sample hosts and worlds *)

Module Sample.

(** The errors of a POSIX host. *)
Definition posix_error (k : os_failure) (path : string) : string * string :=
  match k with
  | IsDirectory =>
      ("IsADirectoryError", "[Errno 21] Is a directory: '" +:+ path +:+ "'")
  | NoSuchFile =>
      ("FileNotFoundError",
       "[Errno 2] No such file or directory: '" +:+ path +:+ "'")
  end.

(** The errors of a Windows host. *)
Definition windows_error (k : os_failure) (path : string) : string * string :=
  match k with
  | IsDirectory =>
      ("PermissionError", "[Errno 13] Permission denied: '" +:+ path +:+ "'")
  | NoSuchFile =>
      ("FileNotFoundError",
       "[WinError 2] The system cannot find the file specified: '"
       +:+ path +:+ "'")
  end.

Definition no_output (code : Z) : CompletedProcess :=
  {| returncode := code; stdout := EmptyString; stderr := EmptyString |}.

(** A host with neither the runtime nor its package manager: every child
    process ends with status 1 and prints nothing. *)
Definition bare_host : Host := {|
  os_name := "posix";
  os_error := posix_error;
  host_write := fun _ _ _ => Written;
  host_remove := fun _ _ => None;
  host_run := fun _ _ w => (Ret (no_output 1), fs w)
|}.

(** A host whose child processes never finish in time. *)
Definition slow_host : Host := {|
  os_name := "posix";
  os_error := posix_error;
  host_write := fun _ _ _ => Written;
  host_remove := fun _ _ => None;
  host_run := fun _ limit w =>
    (Raise (TimeoutExpired "timed out"), fs w)
|}.

(** A host whose child processes print to both streams and end with
    status 3. *)
Definition noisy_host : Host := {|
  os_name := "posix";
  os_error := posix_error;
  host_write := fun _ _ _ => Written;
  host_remove := fun _ _ => None;
  host_run := fun _ _ w =>
    (Ret {| returncode := 3; stdout := "partial report";
            stderr := "❌ Error: net::ERR_NAME_NOT_RESOLVED" |}, fs w)
|}.

Definition empty_world : World :=
  {| config := CONFIG; fs := ∅; trace := [] |}.

(** A working directory where the dependencies are in place. *)
Definition installed_world : World :=
  {| config := CONFIG; fs := {["node_modules" := Dir]}; trace := [] |}.

End Sample.


(** ** The text mode of [subprocess.run]

    With [text=True] and [encoding='utf-8'] the bytes a child wrote are
    decoded strictly and their line ends are translated
    ([data.decode(encoding, errors)] followed by
    [replace("\r\n", "\n").replace("\r", "\n")] in [_translate_newlines]),
    standard output first.  A text is held as its UTF-8 bytes, so decoding
    checks the bytes and keeps them. *)

Module Subprocess.








Section TextMode.

(** The text [str(e)] of the [UnicodeDecodeError] for undecodable data. *)
Context (describe : string -> string).



End TextMode.

End Subprocess.

(** ** Further notions *)

(** The world in which [execute_script] reaches its [finally] clause. *)
Definition at_cleanup (h : Host) (node_path script : string) (w : World)
  : World :=
  snd (try_except (PuppeteerManager.run_script h node_path script)
         PuppeteerManager.on_exception w).

(** The child process of an invocation completed: the script was written and
    [subprocess.run] returned. *)
Definition child_completed (h : Host) (node_path script : string) (w : World)
  : Prop :=
  fs w !! PuppeteerManager.script_file ≠ Some Dir
  /\ host_write h PuppeteerManager.script_file script w = Written
  /\ exists cp f,
       host_run h [node_path; PuppeteerManager.script_file]
         (Some (timeout (config w)))
         (written w PuppeteerManager.script_file script) = (Ret cp, f).

(** A dictionary whose [details] hold none of the output statistics. *)
Definition lacks_statistics (d : pydict) : bool :=
  match py_get "details" d with
  | Some (VDict stats) =>
      forallb (fun k => negb (has_key k stats)) statistics_fields
  | _ => true
  end.

(** The text of a research script after the URL and its closing quote. *)
Definition after_url (cfg : Config) : string :=
  JsLex.skip 1 PuppeteerManager.research_body_2
  +:+ pretty (analysis_timeout cfg) +:+ PuppeteerManager.research_body_3
  +:+ PuppeteerManager.script_epilogue.

(** ** The metrics read back from a research report

    The loop of [main] that scans the captured output of a research run for
    the figures of the dashboard.  It is the part of the user interface that
    computes on strings alone. *)

Module Presenter.

Fixpoint starts_with (p s : string) : bool :=
  match p, s with
  | EmptyString, _ => true
  | String a p', String b s' => Ascii.eqb a b && starts_with p' s'
  | String _ _, EmptyString => false
  end.

(** [p in s] *)
Fixpoint occurs (p s : string) : bool :=
  starts_with p s
  || match s with
     | String _ s' => occurs p s'
     | EmptyString => false
     end.

(** [s.split(c)] for a separator of one character: never an empty list. *)
Fixpoint split_on (c : ascii) (s : string) : list string :=
  match s with
  | EmptyString => [EmptyString]
  | String a s' =>
      if Ascii.eqb a c then EmptyString :: split_on c s'
      else match split_on c s' with
           | p :: r => String a p :: r
           | [] => [String a EmptyString]
           end
  end.

(** [l[i]] *)
Definition item (i : nat) (l : list string) : result string :=
  match nth_error l i with
  | Some x => Ret x
  | None => Raise (PyException "IndexError" "list index out of range")
  end.

(** [s.split()] over the characters of [s]: the runs of characters that are
    not white space; [cur] is the run being read. *)
Fixpoint split_runs (cur : string) (cs : list string) : list string :=
  match cs with
  | [] => if PyStr.truthy cur then [cur] else []
  | c :: r =>
      if PyStr.is_space (PyStr.codepoint c) then
        if PyStr.truthy cur then cur :: split_runs EmptyString r
        else split_runs EmptyString r
      else split_runs (cur +:+ c) r
  end.

Definition split_ws (s : string) : list string :=
  split_runs EmptyString (PyStr.chars s).

(** [s.replace(old, new)] for a non-empty [old]: the occurrences are taken
    from the left and do not overlap; [skipped] counts the characters of an
    occurrence still to pass over. *)
Fixpoint replace_from (old new : string) (skipped : nat) (s : string) : string :=
  match s with
  | EmptyString => EmptyString
  | String a s' =>
      match skipped with
      | S k => replace_from old new k s'
      | O =>
          if starts_with old s then
            new +:+ replace_from old new (String.length old - 1) s'
          else String a (replace_from old new O s')
      end
  end.

Definition replace (old new s : string) : string := replace_from old new O s.

Definition and_then {A B} (r : result A) (k : A -> result B) : result B :=
  match r with
  | Ret a => k a
  | Raise e => Raise e
  end.

(** [line.split(':')[1]] *)
Definition field1 (line : string) : result string :=
  item 1 (split_on ":"%char line).

(** The body of the loop: what one line does to [metrics_data]. *)
Definition metric_step (metrics : gmap string string) (line : string)
  : result (gmap string string) :=
  if occurs "Word Count:" line then
    and_then (field1 line) (fun f =>
    and_then (item 0 (split_ws (PyStr.strip f))) (fun w =>
    Ret (<["words" := replace "," EmptyString w]> metrics)))
  else if occurs "Total Links:" line then
    and_then (field1 line) (fun f =>
    Ret (<["links" := PyStr.strip f]> metrics))
  else if occurs "Total Load Time:" line then
    and_then (field1 line) (fun f =>
    Ret (<["load_time" := replace "ms" EmptyString (PyStr.strip f)]> metrics))
  else if occurs "Total DOM Elements:" line then
    and_then (field1 line) (fun f =>
    Ret (<["elements" := replace "," EmptyString (PyStr.strip f)]> metrics))
  else Ret metrics.

(** [for line in output_lines: ...] *)
Fixpoint metric_loop (metrics : gmap string string) (lines : list string)
  : result (gmap string string) :=
  match lines with
  | [] => Ret metrics
  | line :: rest => and_then (metric_step metrics line) (fun m => metric_loop m rest)
  end.

(** From [output_lines = result["output"].split('\n')] to the end of the
    loop. *)
Definition extract_metrics (output : string) : result (gmap string string) :=
  metric_loop ∅ (PyStr.split_nl output).

(** The lines that name a figure. *)
Definition names_figure (line : string) : bool :=
  occurs "Word Count:" line || occurs "Total Links:" line
  || occurs "Total Load Time:" line || occurs "Total DOM Elements:" line.

(** What the loop keeps true of [metrics_data]: the keys it can set, and no
    comma in the figures it takes the commas out of. *)
Definition tidy (m : gmap string string) : Prop :=
  dom m ⊆ ({["words"; "links"; "load_time"; "elements"]} : gset string)
  /\ (forall v, m !! "words" = Some v -> JsLex.contains ","%char v = false)
  /\ (forall v, m !! "elements" = Some v -> JsLex.contains ","%char v = false).

End Presenter.

(** ** Further hosts *)

Module Scenario.

Definition printed (out : string) : CompletedProcess :=
  {| returncode := 0; stdout := out; stderr := EmptyString |}.

(** The second word of a command line. *)
Definition argument (argv : list string) : string :=
  match argv with
  | _ :: a :: _ => a
  | _ => EmptyString
  end.

(** What the discovery command prints on a host with two installations of
    the runtime. *)
Definition listing : CompletedProcess :=
  printed ("/usr/bin/node" +:+ PyStr.nl +:+ "/opt/node/bin/node" +:+ PyStr.nl).

(** A host with the runtime and its package manager: the discovery command
    lists them, the runtime answers the version query, the package manager
    creates [node_modules], and a script prints a report. *)
Definition working_host : Host := {|
  os_name := "posix";
  os_error := Sample.posix_error;
  host_write := fun _ _ _ => Written;
  host_remove := fun _ _ => None;
  host_run := fun argv _ w =>
    let a := argument argv in
    if String.eqb a "node" then (Ret listing, fs w)
    else if String.eqb a "npm" then
      (Ret (printed ("/usr/bin/npm" +:+ PyStr.nl)), fs w)
    else if String.eqb a "--version" then
      (Ret (printed ("v20.11.0" +:+ PyStr.nl)), fs w)
    else if String.eqb a "install" then
      (Ret (printed "added 1 package"), <["node_modules" := Dir]> (fs w))
    else (Ret (printed "report"), fs w)
|}.

(** The same host with a runtime that is found but does not start: the
    version query ends with status 127. *)
Definition broken_runtime_host : Host := {|
  os_name := "posix";
  os_error := Sample.posix_error;
  host_write := fun _ _ _ => Written;
  host_remove := fun _ _ => None;
  host_run := fun argv limit w =>
    if String.eqb (argument argv) "--version" then
      (Ret {| returncode := 127; stdout := EmptyString;
              stderr := "cannot execute binary file" |}, fs w)
    else host_run working_host argv limit w
|}.

(** A host whose working directory is read-only: every [open] for writing
    is refused. *)
Definition read_only_host : Host := {|
  os_name := "posix";
  os_error := Sample.posix_error;
  host_write := fun path _ _ =>
    OpenRefused (PyException "PermissionError"
                   ("[Errno 13] Permission denied: '" +:+ path +:+ "'"));
  host_remove := fun _ _ => None;
  host_run := host_run working_host
|}.

(** A host where the user interrupts every child process. *)
Definition interrupted_host : Host := {|
  os_name := "posix";
  os_error := Sample.posix_error;
  host_write := fun _ _ _ => Written;
  host_remove := fun _ _ => None;
  host_run := fun _ _ w =>
    (Raise (PyBaseException "KeyboardInterrupt" EmptyString), fs w)
|}.

(** A host on which no program can be started. *)
Definition no_exec_host : Host := {|
  os_name := "nt";
  os_error := Sample.windows_error;
  host_write := fun _ _ _ => Written;
  host_remove := fun _ _ => None;
  host_run := fun argv _ w =>
    (Raise (PyException "FileNotFoundError"
              "[WinError 2] The system cannot find the file specified"), fs w)
|}.

(** A host whose package manager fails and creates nothing. *)
Definition failing_manager_host : Host := {|
  os_name := "posix";
  os_error := Sample.posix_error;
  host_write := fun _ _ _ => Written;
  host_remove := fun _ _ => None;
  host_run := fun argv _ w =>
    (Ret {| returncode := 1; stdout := EmptyString;
            stderr := "npm ERR! network timeout" |}, fs w)
|}.

(** A host on which removing a file is refused. *)
Definition sticky_host : Host := {|
  os_name := "posix";
  os_error := Sample.posix_error;
  host_write := fun _ _ _ => Written;
  host_remove := fun path _ =>
    Some (PyException "PermissionError"
            ("[Errno 1] Operation not permitted: '" +:+ path +:+ "'"));
  host_run := host_run working_host
|}.





(** A working directory where a directory sits at the script path. *)
Definition blocked_world : World :=
  {| config := CONFIG; fs := {["temp_automation.js" := Dir]}; trace := [] |}.

End Scenario.

(** * Properties *)

Import PuppeteerManager.

(** ** The process runner *)

Section Runner.

Context (h : Host).

(** Unfolds the computations down to the answers of the host. *)
Ltac step_through :=
  unfold execute_script, run_script, on_exception, swallow, try_finally,
    try_except, bind, ret, raise, get_config, write_file, subprocess_run,
    os_remove, written, put_file, with_fs, log, os_exn in *;
  cbn [fst snd config fs trace] in *.

(** The guarded cleanup never raises and issues exactly one removal.  It
    leaves no regular file at the script path unless the host refuses the
    removal; then the file system stays as it was. *)
Lemma cleanup_spec (w1 : World) :
  let w2 := snd (swallow (os_remove h script_file) w1) in
  fst (swallow (os_remove h script_file) w1) = Ret tt
  ∧ (host_remove h script_file w1 = None ->
     is_file (fs w2 !! script_file) = false)
  ∧ trace w2 = trace w1 ++ [EvRemove script_file]
  ∧ config w2 = config w1
  ∧ (is_Some (host_remove h script_file w1) -> fs w2 = fs w1).
Proof.
  step_through.
  destruct (fs w1 !! script_file) as [[c|]|] eqn:E;
    cbn [fst snd config fs trace].
  - destruct (host_remove h script_file w1) as [e|] eqn:Hrefused;
      cbn [fst snd config fs trace].
    + repeat split; auto; discriminate.
    + rewrite lookup_delete_eq. repeat split; auto.
      intros [x Hx]. discriminate.
  - rewrite E. repeat split; auto.
  - rewrite E. repeat split; auto.
Qed.

(** The [try] body with its handlers: the write is issued first, then at
    most one child process, started on the script file under the configured
    time limit. *)
Lemma guarded_body_trace (node_path script : string) (w : World) :
  let w1 := snd (try_except (run_script h node_path script) on_exception w) in
  config w1 = config w
  ∧ (trace w1 = trace w ++ [EvWrite script_file script]
     ∨ trace w1 = trace w ++ [EvWrite script_file script;
                              EvRun [node_path; script_file]
                                (Some (timeout (config w)))]).
Proof.
  step_through.
  destruct (fs w !! script_file) as [[c|]|];
    cbn [fst snd config fs trace]; auto;
    destruct (host_write h script_file script w) as [|e|part e];
    cbn [fst snd config fs trace];
    try (destruct e; cbn [fst snd config fs trace]; auto; fail);
    match goal with
    | |- context [host_run h ?a ?l ?x] =>
        destruct (host_run h a l x) as [[cp|e] f]
    end;
    cbn [fst snd config fs trace];
    try destruct e; cbn [fst snd config fs trace];
    rewrite <- ?app_assoc; auto.
Qed.

(** How [execute_script] ends when the script was written and the child
    process completed. *)
Lemma execute_script_completed (node_path script : string) (w : World)
    (cp : CompletedProcess) (f : gmap string node) :
  fs w !! script_file ≠ Some Dir ->
  host_write h script_file script w = Written ->
  host_run h [node_path; script_file] (Some (timeout (config w)))
    (written w script_file script) = (Ret cp, f) ->
  fst (execute_script h node_path script w) = Ret (completed_result cp).
Proof.
  intros Hdir Hwrite Hrun.
  unfold execute_script, try_finally.
  assert (Hbody : fst (try_except (run_script h node_path script) on_exception w)
                  = Ret (completed_result cp)).
  { unfold try_except, run_script, bind, get_config, write_file, subprocess_run, ret.
    rewrite Hwrite.
    destruct (fs w !! script_file) as [[c|]|]; try congruence;
      change (config (written w script_file script)) with (config w);
      rewrite Hrun; reflexivity. }
  destruct (try_except (run_script h node_path script) on_exception w) as [r w1].
  cbn [fst] in Hbody. subst r.
  pose proof (cleanup_spec w1) as [Hret _].
  destruct (swallow (os_remove h script_file) w1) as [[u|e] w2];
    cbn [fst] in Hret; [reflexivity | discriminate].
Qed.

(** How [execute_script] ends when the script was written and the child
    process ran out of time. *)
Lemma execute_script_timed_out (node_path script : string) (w : World)
    (msg : string) (f : gmap string node) :
  fs w !! script_file ≠ Some Dir ->
  host_write h script_file script w = Written ->
  host_run h [node_path; script_file] (Some (timeout (config w)))
    (written w script_file script) = (Raise (TimeoutExpired msg), f) ->
  fst (execute_script h node_path script w) = Ret (timeout_result (config w)).
Proof.
  intros Hdir Hwrite Hrun.
  unfold execute_script, try_finally.
  assert (Hbody : fst (try_except (run_script h node_path script) on_exception w)
                  = Ret (timeout_result (config w))).
  { unfold try_except, run_script, bind, get_config, write_file, subprocess_run, ret.
    rewrite Hwrite.
    destruct (fs w !! script_file) as [[c|]|]; try congruence;
      change (config (written w script_file script)) with (config w);
      rewrite Hrun; reflexivity. }
  destruct (try_except (run_script h node_path script) on_exception w) as [r w1].
  cbn [fst] in Hbody. subst r.
  pose proof (cleanup_spec w1) as [Hret _].
  destruct (swallow (os_remove h script_file) w1) as [[u|e] w2];
    cbn [fst] in Hret; [reflexivity | discriminate].
Qed.



(** Every dictionary [execute_script] returns comes from one of its three
    [return] statements. *)
Lemma execute_script_shapes (node_path script : string) (w : World) (d : pydict) :
  fst (execute_script h node_path script w) = Ret d ->
  (exists cp, d = completed_result cp)
  \/ d = timeout_result (config w)
  \/ (exists e, d = error_result e).
Proof.
  unfold execute_script, try_finally.
  assert (Hbody : forall r, 
            fst (try_except (run_script h node_path script) on_exception w) = Ret r ->
            (exists cp, r = completed_result cp)
            \/ r = timeout_result (config w)
            \/ (exists e, r = error_result e)).
  { step_through.
    destruct (fs w !! script_file) as [[c|]|];
      cbn [fst snd config fs trace];
      try (intros r [= <-]; eauto; fail);
      destruct (host_write h script_file script w) as [|e|part e];
      cbn [fst snd config fs trace];
      try (destruct e; cbn [fst snd config fs trace];
           intros r [= <-]; eauto; fail);
      match goal with
      | |- context [host_run h ?a ?l ?x] =>
          destruct (host_run h a l x) as [[cp|e] f]
      end;
      cbn [fst snd config fs trace];
      try destruct e; cbn [fst snd config fs trace];
      intros r [= <-]; eauto. }
  destruct (try_except (run_script h node_path script) on_exception w) as [r w1].
  pose proof (cleanup_spec w1) as [Hret _].
  destruct (swallow (os_remove h script_file) w1) as [[u|e] w2];
    cbn [fst] in Hret; [| discriminate].
  cbn [fst]. intros ->. apply Hbody. reflexivity.
Qed.

(** C1, as the code has it: on every way out of [execute_script] (the child
    completed with any exit status, it ran out of time, or the write, the
    spawn or the read raised, whether the call then returns a dictionary or
    lets the exception through) the removal of the script file is the last
    system call issued, and it does not change what the call returns or
    raises.  No regular file is left at the script path unless the host
    refuses the removal; a refusal is swallowed and leaves the file system as
    the [try] statement left it. *)
Theorem execute_script_removes_unless_refused
    (node_path script : string) (w : World) :
  (exists evs,
      trace (snd (execute_script h node_path script w))
      = trace w ++ evs ++ [EvRemove script_file])
  /\ fst (execute_script h node_path script w)
     = fst (try_except (run_script h node_path script) on_exception w)
  /\ (host_remove h script_file (at_cleanup h node_path script w) = None ->
      is_file (fs (snd (execute_script h node_path script w)) !! script_file)
      = false)
  /\ (is_Some (host_remove h script_file (at_cleanup h node_path script w)) ->
      fs (snd (execute_script h node_path script w))
      = fs (at_cleanup h node_path script w)).
Proof.
  unfold at_cleanup, execute_script, try_finally.
  pose proof (guarded_body_trace node_path script w) as [_ Htrace].
  destruct (try_except (run_script h node_path script) on_exception w) as [r w1].
  cbn [fst snd] in *.
  pose proof (cleanup_spec w1) as (Hret & Hfile & Hlast & _ & Hkept).
  destruct (swallow (os_remove h script_file) w1) as [[u|e] w2];
    cbn [fst snd] in *; [| discriminate].
  repeat split; auto.
  rewrite Hlast. destruct Htrace as [-> | ->];
    eexists; rewrite <- app_assoc; reflexivity.
Qed.

(** C2: when the script was written and the child process exceeds the
    configured time limit, [execute_script] returns a dictionary (the
    exception does not reach the caller) whose [success] is false and whose
    [error] names the limit: 300 seconds under the default configuration. *)
Theorem execute_script_reports_timeout
    (node_path script : string) (w : World) (msg : string)
    (f : gmap string node) :
  fs w !! script_file ≠ Some Dir ->
  host_write h script_file script w = Written ->
  host_run h [node_path; script_file] (Some (timeout (config w)))
    (written w script_file script) = (Raise (TimeoutExpired msg), f) ->
  exists d,
    fst (execute_script h node_path script w) = Ret d
    /\ py_get "success" d = Some (VBool false)
    /\ py_get "error" d
       = Some (VStr ("Execution timeout after " +:+ pretty (timeout (config w))
                     +:+ " seconds - process was terminated for safety"))
    /\ (timeout (config w) = 300 ->
        py_get "error" d
        = Some (VStr "Execution timeout after 300 seconds - process was terminated for safety")).
Proof.
  intros Hdir Hwrite Hrun.
  exists (timeout_result (config w)).
  split; [eapply execute_script_timed_out; eassumption |].
  repeat split.
  intros Hlimit. unfold timeout_result. rewrite Hlimit. reflexivity.
Qed.


(** C10: on normal completion the [error] entry is [None] exactly when the
    child wrote nothing to standard error, it is that text when the child
    wrote some, and it is never the empty string. *)
Theorem execute_script_error_field
    (node_path script : string) (w : World) (cp : CompletedProcess)
    (f : gmap string node) :
  fs w !! script_file ≠ Some Dir ->
  host_write h script_file script w = Written ->
  host_run h [node_path; script_file] (Some (timeout (config w)))
    (written w script_file script) = (Ret cp, f) ->
  exists d,
    fst (execute_script h node_path script w) = Ret d
    /\ (py_get "error" d = Some VNone <-> stderr cp = EmptyString)
    /\ (stderr cp ≠ EmptyString -> py_get "error" d = Some (VStr (stderr cp)))
    /\ py_get "error" d ≠ Some (VStr EmptyString).
Proof.
  intros Hdir Hwrite Hrun.
  exists (completed_result cp).
  split; [eapply execute_script_completed; eassumption |].
  cbn [py_get completed_result String.eqb Ascii.eqb Bool.eqb].
  destruct (stderr cp) as [|a s]; cbn [PyStr.truthy].
  - repeat split; congruence.
  - repeat split; congruence.
Qed.

(** C6, as the code has it: every invocation first writes the script to the
    fixed path [temp_automation.js], starts at most one child process after
    that, on that file and under the configured time limit, and ends with the
    removal of the file.  The name is the same for all invocations. *)
Theorem execute_script_writes_then_spawns
    (node_path script : string) (w : World) :
  exists mid,
    issued (execute_script h node_path script) w
    = EvWrite "temp_automation.js" script
        :: mid ++ [EvRemove "temp_automation.js"]
    /\ (mid = []
        \/ mid = [EvRun [node_path; "temp_automation.js"]
                    (Some (timeout (config w)))]).
Proof.
  unfold issued, execute_script, try_finally.
  pose proof (guarded_body_trace node_path script w) as [_ Htrace].
  destruct (try_except (run_script h node_path script) on_exception w) as [r w1].
  cbn [snd] in Htrace.
  pose proof (cleanup_spec w1) as (_ & _ & Hlast & _).
  assert (Hw2 : trace (snd (let (r0, w2) := swallow (os_remove h script_file) w1 in
                            match r0 with
                            | Ret _ => (r, w2)
                            | Raise e => (Raise e, w2)
                            end))
                = trace (snd (swallow (os_remove h script_file) w1))).
  { destruct (swallow (os_remove h script_file) w1) as [[u|e] w2]; reflexivity. }
  rewrite Hw2, Hlast.
  destruct Htrace as [-> | ->]; rewrite <- app_assoc, drop_app_length;
    [exists [] | eexists [_]]; split; [reflexivity | auto | reflexivity | auto].
Qed.

(** A dictionary with an [output] entry is returned only when the child
    process completed. *)
Lemma output_means_completed (node_path script : string) (w : World) (d : pydict) :
  fst (execute_script h node_path script w) = Ret d ->
  has_key "output" d = true ->
  child_completed h node_path script w.
Proof.
  unfold execute_script, try_finally.
  assert (Hbody : forall r,
            fst (try_except (run_script h node_path script) on_exception w)
            = Ret r ->
            has_key "output" r = true ->
            child_completed h node_path script w).
  { unfold child_completed, run_script, on_exception, try_except, bind, ret,
      get_config, write_file, subprocess_run.
    destruct (fs w !! script_file) as [[c|]|] eqn:Hpath; cbn [fst snd].
    2: { intros r [= <-] Hk. discriminate Hk. }
    all: destruct (host_write h script_file script w) as [|e|part e] eqn:Hwrite;
      cbn [fst snd].
    all: try (destruct e; cbn [fst snd]; intros r Hr Hk;
              try discriminate Hr; injection Hr as <-; discriminate Hk).
    all: change (config (written w script_file script)) with (config w);
      destruct (host_run h [node_path; script_file]
                  (Some (timeout (config w)))
                  (written w script_file script)) as [[cp|e] f] eqn:Hrun;
      cbn [fst snd].
    all: try (destruct e; cbn [fst snd]; intros r Hr Hk;
              try discriminate Hr; injection Hr as <-; discriminate Hk).
    all: intros r _ _; repeat split; [congruence | eauto]. }
  destruct (try_except (run_script h node_path script) on_exception w) as [r w1].
  pose proof (cleanup_spec w1) as [Hclean _].
  destruct (swallow (os_remove h script_file) w1) as [[u|e] w2];
    cbn [fst] in Hclean; [| discriminate].
  cbn [fst]. intros ->. apply Hbody. reflexivity.
Qed.

(** C7, as the code has it: every dictionary [execute_script] returns has
    the entries [success], [error] and [details].  It has all the fields of
    an execution result exactly when the child process completed; after a
    timeout or any other exception it has no [output], no [return_code] and
    no statistics under [details]. *)
Theorem execute_script_result_fields
    (node_path script : string) (w : World) (d : pydict) :
  fst (execute_script h node_path script w) = Ret d ->
  has_key "success" d = true
  /\ has_key "error" d = true
  /\ has_key "details" d = true
  /\ (has_all_fields d = true <-> child_completed h node_path script w)
  /\ (~ child_completed h node_path script w ->
      has_key "output" d = false
      /\ has_key "return_code" d = false
      /\ lacks_statistics d = true).
Proof.
  intros Hret.
  destruct (execute_script_shapes node_path script w d Hret)
    as [[cp ->] | Hfail].
  - assert (Hdone : child_completed h node_path script w)
      by (apply (output_means_completed node_path script w _ Hret);
          reflexivity).
    split; [reflexivity |]. split; [reflexivity |]. split; [reflexivity |].
    split; [split; [intros _; exact Hdone | reflexivity] |].
    intros Hnot. contradiction.
  - assert (Hnot : ~ child_completed h node_path script w).
    { intros (Hdir & Hwrite & cp & f & Hrun).
      pose proof (execute_script_completed node_path script w cp f
                    Hdir Hwrite Hrun) as Hdone.
      rewrite Hret in Hdone. injection Hdone as ->.
      destruct Hfail as [Hd | [e Hd]]; discriminate Hd. }
    destruct Hfail as [-> | [e ->]].
    all: split; [reflexivity |]; split; [reflexivity |];
      split; [reflexivity |];
      split; [split; [discriminate | intros Hc; contradiction] |];
      intros _; repeat split.
Qed.

End Runner.

(** C1 at work: a child that fails leaves no script file behind when the
    removal goes through. *)
Lemma execute_script_removes_unless_refused_witness :
  is_file (fs (snd (execute_script Sample.noisy_host "node" "x" Sample.empty_world))
           !! script_file) = false.
Proof.
  destruct (execute_script_removes_unless_refused Sample.noisy_host "node" "x"
              Sample.empty_world) as (_ & _ & Hgone & _).
  apply Hgone. reflexivity.
Defined.

(** C1 fails as stated: on a host that refuses the removal the call returns
    its result as if nothing had happened, and the script file is still
    there. *)
Lemma refused_removal_leaves_script_file :
  fst (execute_script Scenario.sticky_host "node" "x" Sample.empty_world)
  = Ret (completed_result (Scenario.printed "report"))
  /\ fs (snd (execute_script Scenario.sticky_host "node" "x" Sample.empty_world))
     !! script_file = Some (File "x")
  /\ is_file (fs (snd (execute_script Scenario.sticky_host "node" "x"
                         Sample.empty_world)) !! script_file) = true.
Proof. repeat split; vm_compute; reflexivity. Qed.

(** C2 at work: a child that never finishes, under the default limit. *)
Lemma execute_script_reports_timeout_witness :
  exists d,
    fst (execute_script Sample.slow_host "node" "x" Sample.empty_world) = Ret d
    /\ py_get "success" d = Some (VBool false)
    /\ py_get "error" d
       = Some (VStr ("Execution timeout after "
                     +:+ pretty (timeout (config Sample.empty_world))
                     +:+ " seconds - process was terminated for safety"))
    /\ (timeout (config Sample.empty_world) = 300 ->
        py_get "error" d
        = Some (VStr "Execution timeout after 300 seconds - process was terminated for safety")).
Proof.
  apply (execute_script_reports_timeout Sample.slow_host "node" "x"
           Sample.empty_world "timed out"
           (<[script_file := File "x"]> ∅)).
  - cbn. rewrite lookup_empty. discriminate.
  - reflexivity.
  - reflexivity.
Defined.



(** C10 at work: a child that prints nothing. *)
Lemma execute_script_error_field_witness :
  exists d,
    fst (execute_script Sample.bare_host "node" "x" Sample.empty_world) = Ret d
    /\ (py_get "error" d = Some VNone <-> EmptyString = EmptyString)
    /\ (EmptyString ≠ EmptyString -> py_get "error" d = Some (VStr EmptyString))
    /\ py_get "error" d ≠ Some (VStr EmptyString).
Proof.
  apply (execute_script_error_field Sample.bare_host "node" "x"
           Sample.empty_world (Sample.no_output 1)
           (<[script_file := File "x"]> ∅)).
  - cbn. rewrite lookup_empty. discriminate.
  - reflexivity.
  - reflexivity.
Defined.

(** C6 fails as stated: two invocations in a row, on different scripts, write
    to the same file name. *)
Lemma transient_name_is_shared :
  written_paths
    (issued (execute_script Sample.bare_host "node" "first") Sample.empty_world)
  = ["temp_automation.js"]
  /\ written_paths
       (issued (execute_script Sample.bare_host "node" "second")
          (snd (execute_script Sample.bare_host "node" "first"
                  Sample.empty_world)))
     = ["temp_automation.js"].
Proof. split; vm_compute; reflexivity. Qed.

(** C7 fails as stated: the dictionary returned after a timeout has no
    [output] and no [return_code], and its [details] hold no statistics. *)
Lemma timeout_result_lacks_fields :
  fst (execute_script Sample.slow_host "node" "x" Sample.empty_world)
  = Ret (timeout_result CONFIG)
  /\ has_key "output" (timeout_result CONFIG) = false
  /\ has_key "return_code" (timeout_result CONFIG) = false
  /\ has_all_fields (timeout_result CONFIG) = false.
Proof. repeat split; vm_compute; reflexivity. Qed.

(** C7 at work, on the dictionary returned after a timeout. *)
Lemma execute_script_result_fields_witness :
  has_key "success" (timeout_result CONFIG) = true
  /\ has_key "error" (timeout_result CONFIG) = true
  /\ has_key "details" (timeout_result CONFIG) = true
  /\ (has_all_fields (timeout_result CONFIG) = true
      <-> child_completed Sample.slow_host "node" "x" Sample.empty_world)
  /\ (~ child_completed Sample.slow_host "node" "x" Sample.empty_world ->
      has_key "output" (timeout_result CONFIG) = false
      /\ has_key "return_code" (timeout_result CONFIG) = false
      /\ lacks_statistics (timeout_result CONFIG) = true).
Proof.
  apply (execute_script_result_fields Sample.slow_host "node" "x"
           Sample.empty_world (timeout_result CONFIG)).
  vm_compute. reflexivity.
Defined.

(** ** The configuration is never written *)

Section KeepsConfig.

Context (h : Host).

Lemma keeps_ret {A} (a : A) : keeps_config (ret a).
Proof. intros w. reflexivity. Qed.

Lemma keeps_raise {A} (e : exn) : keeps_config (@raise A e).
Proof. intros w. reflexivity. Qed.

Lemma keeps_get_config : keeps_config get_config.
Proof. intros w. reflexivity. Qed.

Lemma keeps_bind {A B} (c : M A) (k : A -> M B) :
  keeps_config c -> (forall a, keeps_config (k a)) -> keeps_config (bind c k).
Proof.
  intros Hc Hk w. unfold bind. specialize (Hc w).
  destruct (c w) as [[a|e] w1]; cbn [snd] in *.
  - rewrite Hk. exact Hc.
  - exact Hc.
Qed.

Lemma keeps_try_except {A} (body : M A) (handler : exn -> option (M A)) :
  keeps_config body ->
  (forall e k, handler e = Some k -> keeps_config k) ->
  keeps_config (try_except body handler).
Proof.
  intros Hb Hh w. unfold try_except. specialize (Hb w).
  destruct (body w) as [[a|e] w1]; cbn [snd] in *; [exact Hb |].
  destruct (handler e) as [k|] eqn:E; cbn [snd]; [| exact Hb].
  rewrite (Hh e k E). exact Hb.
Qed.

Lemma keeps_try_finally {A} (body : M A) (cleanup : M unit) :
  keeps_config body -> keeps_config cleanup ->
  keeps_config (try_finally body cleanup).
Proof.
  intros Hb Hc w. unfold try_finally. specialize (Hb w).
  destruct (body w) as [r w1]. specialize (Hc w1). cbn [snd] in *.
  destruct (cleanup w1) as [[u|e] w2]; cbn [snd] in *; congruence.
Qed.

Lemma keeps_write_file (path content : string) :
  keeps_config (write_file h path content).
Proof.
  intros w. unfold write_file.
  destruct (fs w !! path) as [[c|]|]; try reflexivity;
    destruct (host_write h path content w); reflexivity.
Qed.

Lemma keeps_subprocess_run (argv : list string) (limit : option Z) :
  keeps_config (subprocess_run h argv limit).
Proof.
  intros w. unfold subprocess_run.
  destruct (host_run h argv limit w). reflexivity.
Qed.

Lemma keeps_os_remove (path : string) : keeps_config (os_remove h path).
Proof.
  intros w. unfold os_remove.
  destruct (fs w !! path) as [[c|]|]; try reflexivity.
  destruct (host_remove h path w); reflexivity.
Qed.

Lemma keeps_path_exists (path : string) : keeps_config (path_exists path).
Proof. intros w. reflexivity. Qed.

Lemma keeps_item0 (l : list string) : keeps_config (SystemManager.item0 l).
Proof. destruct l; [apply keeps_raise | apply keeps_ret]. Qed.

Create HintDb keeps.
#[local] Hint Resolve keeps_ret keeps_raise keeps_get_config keeps_write_file
  keeps_subprocess_run keeps_os_remove keeps_path_exists keeps_item0 : keeps.

(** Splits a computation along its combinators. *)
Ltac keeps :=
  repeat first
    [ progress eauto with keeps
    | apply keeps_bind; [| intros ?]
    | apply keeps_try_finally
    | apply keeps_try_except;
        [| let e := fresh "e" in let k := fresh "k" in
           intros e k; try destruct e; cbn; intros [= <-] ]
    | match goal with
      | |- keeps_config (if ?b then _ else _) => destruct b
      | |- keeps_config (match ?x with _ => _ end) => destruct x
      end ].

Lemma keeps_locate (prog : string) : keeps_config (SystemManager.locate h prog).
Proof. unfold SystemManager.locate. keeps. Qed.

Lemma keeps_find_executables : keeps_config (SystemManager.find_executables h).
Proof.
  unfold SystemManager.find_executables.
  pose proof keeps_locate. keeps.
Qed.

Lemma keeps_validate_environment :
  keeps_config (SystemManager.validate_environment h).
Proof.
  unfold SystemManager.validate_environment.
  pose proof keeps_find_executables. keeps.
Qed.

Lemma keeps_ensure_installation (npm_path : string) :
  keeps_config (ensure_installation h npm_path).
Proof. unfold ensure_installation. keeps. Qed.

Lemma keeps_execute_script (node_path script : string) :
  keeps_config (execute_script h node_path script).
Proof. unfold execute_script, run_script, on_exception, swallow. keeps. Qed.

Lemma perform_keeps_config (c : call) (w : World) :
  config (snd (perform h c w)) = config w.
Proof.
  destruct c; cbn [perform].
  - pose proof (keeps_find_executables w) as H.
    destruct (SystemManager.find_executables h w). exact H.
  - pose proof (keeps_validate_environment w) as H.
    destruct (SystemManager.validate_environment h w). exact H.
  - pose proof (keeps_ensure_installation npm_path w) as H.
    destruct (ensure_installation h npm_path w). exact H.
  - reflexivity.
  - pose proof (keeps_execute_script node_path script w) as H.
    destruct (execute_script h node_path script w). exact H.
Qed.

Lemma perform_all_keeps_config (cs : list call) (w : World) :
  config (perform_all h cs w) = config w.
Proof.
  revert w. induction cs as [|c cs IH]; intros w; cbn [perform_all].
  - reflexivity.
  - rewrite IH. apply perform_keeps_config.
Qed.

(** ** The script composer *)

(** C4: [create_script] is a function of the action and the parameters
    alone.  Whatever calls were performed before, composing with the same
    action and parameters gives the same text, byte for byte, and composing
    changes nothing in the world. *)
Theorem create_script_deterministic
    (cs : list call) (w : World) (action : string)
    (kwargs : gmap string string) :
  fst (perform h (CreateScript action kwargs) (perform_all h cs w))
  = fst (perform h (CreateScript action kwargs) w)
  /\ snd (perform h (CreateScript action kwargs) w) = w
  /\ fst (perform h (CreateScript action kwargs) w)
     = Script (create_script (config w) action kwargs).
Proof.
  cbn [perform fst snd]. rewrite perform_all_keeps_config. auto.
Qed.

End KeepsConfig.

(** ** Quoting of the interpolated URL *)

Section Quoting.

Lemma append_assoc (a b c : string) : (a +:+ b) +:+ c = a +:+ (b +:+ c).
Proof.
  induction a as [|x a IH]; [reflexivity |].
  change (String x ((a +:+ b) +:+ c) = String x (a +:+ (b +:+ c))).
  f_equal. exact IH.
Qed.

Lemma skip_append (p s : string) : JsLex.skip (String.length p) (p +:+ s) = s.
Proof. induction p as [|x p IH]; [destruct s; reflexivity | exact IH]. Qed.

(** A text without quote, backslash or line break, followed by a quote, is
    read as one literal that holds that text. *)
Lemma single_quoted_plain (body rest : string) :
  JsLex.plain body = true ->
  JsLex.single_quoted (body +:+ String JsLex.quote rest) = Some (body, rest).
Proof.
  induction body as [|a body IH]; intros Hplain.
  - reflexivity.
  - cbn [JsLex.plain] in Hplain. apply andb_true_iff in Hplain as [Ha Hbody].
    apply negb_true_iff in Ha. unfold JsLex.special in Ha.
    apply orb_false_iff in Ha as [Ha Hcr].
    apply orb_false_iff in Ha as [Ha Hlf].
    apply orb_false_iff in Ha as [Hq Hb].
    change (String a body +:+ String JsLex.quote rest)
      with (String a (body +:+ String JsLex.quote rest)).
    cbn [JsLex.single_quoted].
    rewrite Hq, Hlf, Hcr, Hb. cbn [orb].
    rewrite (IH Hbody). reflexivity.
Qed.

(** The research template closes the URL literal right after the URL. *)
Lemma research_body_2_closes :
  research_body_2 = String JsLex.quote (JsLex.skip 1 research_body_2).
Proof. vm_compute. reflexivity. Qed.

(** The script of the research action, cut at the URL. *)
Lemma research_script_split (cfg : Config) (url : string) :
  create_script cfg "research" {["url" := url]}
  = (base_config +:+ research_body_1)
    +:+ (url
         +:+ String JsLex.quote
               (JsLex.skip 1 research_body_2
                +:+ pretty (analysis_timeout cfg) +:+ research_body_3
                +:+ script_epilogue)).
Proof.
  unfold create_script, research_body, url_of.
  rewrite lookup_singleton_eq.
  change (String.eqb "research" "demo") with false.
  change (String.eqb "research" "research") with true.
  cbn [default].
  rewrite !append_assoc.
  rewrite research_body_2_closes at 1.
  reflexivity.
Qed.

(** C5, as the code has it: the URL is inserted as it is, without escaping,
    between single quotes.  It stays inside the literal when it holds no
    single quote, no backslash and no line break; double quotes do no harm. *)
Theorem plain_url_stays_quoted (cfg : Config) (url : string) :
  JsLex.plain url = true ->
  JsLex.url_stays_quoted cfg url.
Proof.
  intros Hplain. unfold JsLex.url_stays_quoted, JsLex.url_literal.
  rewrite research_script_split, skip_append.
  eexists. apply single_quoted_plain. exact Hplain.
Qed.

End Quoting.

(** C5 at work: a URL with double quotes stays inside its literal. *)
Lemma plain_url_stays_quoted_witness :
  JsLex.plain ("https://example.com/?q=" +:+ PyStr.dq +:+ "x" +:+ PyStr.dq) = true
  /\ JsLex.url_stays_quoted CONFIG
       ("https://example.com/?q=" +:+ PyStr.dq +:+ "x" +:+ PyStr.dq).
Proof.
  split.
  - reflexivity.
  - apply (plain_url_stays_quoted CONFIG
             ("https://example.com/?q=" +:+ PyStr.dq +:+ "x" +:+ PyStr.dq)).
    reflexivity.
Defined.

(** C5 fails as stated: a URL with a double quote and a single quote ends the
    literal at the single quote; what follows it in the URL is read as
    program text. *)
Lemma single_quote_ends_url_literal :
  let url := "https://example.com/?q=" +:+ PyStr.dq +:+ "';process.exit(0);//" in
  JsLex.contains (ascii_of_N 34) url = true
  /\ option_map fst
       (JsLex.url_literal (create_script CONFIG "research" {["url" := url]}))
     = Some ("https://example.com/?q=" +:+ PyStr.dq)
  /\ ~ JsLex.url_stays_quoted CONFIG url.
Proof.
  cbv zeta. split; [reflexivity |].
  assert (E : option_map fst
       (JsLex.url_literal
          (create_script CONFIG "research"
             {["url" := "https://example.com/?q=" +:+ PyStr.dq
                        +:+ "';process.exit(0);//"]}))
     = Some ("https://example.com/?q=" +:+ PyStr.dq)).
  { vm_compute. reflexivity. }
  split; [exact E |].
  intros [rest Hrest]. rewrite Hrest in E. cbn [option_map fst] in E.
  apply (f_equal (option_map String.length)) in E.
  vm_compute in E. discriminate E.
Qed.

(** ** The environment prober *)

Section Prober.

Context (h : Host).

(** One guarded query always returns, and returns [None] when it fails. *)
Lemma locate_returns (prog : string) (w : World) :
  exists found,
    fst (SystemManager.locate h prog w) = Ret found
    /\ (query_fails h prog w -> found = None).
Proof.
  unfold SystemManager.locate, query_fails, try_except, bind, subprocess_run, ret.
  destruct (host_run h [SystemManager.discovery_command h; prog] None w)
    as [[cp|e] f]; cbn [fst snd].
  - destruct (returncode cp =? 0) eqn:Hcode.
    + unfold SystemManager.item0.
      destruct (PyStr.split_nl (PyStr.strip (stdout cp))) as [|p ps];
        cbn [fst raise ret]; eexists; (split; [reflexivity |]);
        intros Hfail; apply Z.eqb_eq in Hcode; contradiction.
    + eexists. split; [reflexivity | auto].
  - eexists. split; [reflexivity | auto].
Qed.

(** C8: [find_executables] always returns a pair and never raises; a query
    that fails, because the discovery command raised or ended with a non-zero
    status, gives [None] for its field, and a host where both queries fail
    gives [(None, None)]. *)
Theorem find_executables_never_raises (w : World) :
  exists node_path npm_path,
    fst (SystemManager.find_executables h w) = Ret (node_path, npm_path)
    /\ (query_fails h "node" w -> node_path = None)
    /\ (query_fails h "npm" (snd (SystemManager.locate h "node" w)) ->
        npm_path = None)
    /\ (query_fails h "node" w ->
        query_fails h "npm" (snd (SystemManager.locate h "node" w)) ->
        (node_path, npm_path) = (None, None)).
Proof.
  unfold SystemManager.find_executables, bind.
  destruct (locate_returns "node" w) as (node_path & Hnode & Hnode_fails).
  destruct (SystemManager.locate h "node" w) as [r w1]. cbn [fst snd] in *.
  subst r.
  destruct (locate_returns "npm" w1) as (npm_path & Hnpm & Hnpm_fails).
  destruct (SystemManager.locate h "npm" w1) as [r w2]. cbn [fst] in Hnpm.
  subst r.
  exists node_path, npm_path. cbn [fst ret].
  repeat split; auto.
  intros H1 H2. rewrite (Hnode_fails H1), (Hnpm_fails H2). reflexivity.
Qed.

End Prober.

(** C8 at work: a host with neither executable. *)
Lemma find_executables_never_raises_witness :
  fst (SystemManager.find_executables Sample.bare_host Sample.empty_world)
  = Ret (None, None).
Proof.
  destruct (find_executables_never_raises Sample.bare_host Sample.empty_world)
    as (node_path & npm_path & Hret & _ & _ & Hnone).
  rewrite Hret, Hnone; [reflexivity | cbn; discriminate | cbn; discriminate].
Defined.

(** ** The dependency installer *)

Section Installer.

Context (h : Host).

(** C9: when [node_modules] exists, [ensure_installation] returns success at
    once and issues no system call: the package manager is not started and
    the manifest is not written.  The world is left as it was, so any number
    of further calls do the same. *)
Theorem ensure_installation_skips_when_installed
    (npm_path : string) (w : World) :
  is_Some (fs w !! "node_modules") ->
  ensure_installation h npm_path w
  = (Ret [("success", VBool true);
          ("message", VStr "Dependencies already installed")], w)
  /\ issued (ensure_installation h npm_path) w = []
  /\ forall n,
       perform_all h (replicate n (EnsureInstallation npm_path)) w = w
       /\ spawns (drop (length (trace w))
                    (trace (perform_all h
                              (replicate n (EnsureInstallation npm_path)) w)))
          = false.
Proof.
  intros Hpresent.
  assert (Hcall : ensure_installation h npm_path w
                  = (Ret [("success", VBool true);
                          ("message", VStr "Dependencies already installed")], w)).
  { unfold ensure_installation, bind, path_exists.
    rewrite bool_decide_eq_true_2 by exact Hpresent. reflexivity. }
  split; [exact Hcall |].
  split; [unfold issued; rewrite Hcall; cbn [snd]; apply drop_all |].
  assert (Hall : forall n,
             perform_all h (replicate n (EnsureInstallation npm_path)) w = w).
  { induction n as [|n IH]; [reflexivity |].
    cbn [replicate perform_all perform]. rewrite Hcall. exact IH. }
  intros n. rewrite Hall. split; [reflexivity |].
  rewrite drop_all. reflexivity.
Qed.

End Installer.

(** C9 at work: a working directory that holds [node_modules]. *)
Lemma ensure_installation_skips_when_installed_witness :
  is_Some (fs Sample.installed_world !! "node_modules")
  /\ ensure_installation Sample.bare_host "npm" Sample.installed_world
     = (Ret [("success", VBool true);
             ("message", VStr "Dependencies already installed")],
        Sample.installed_world).
Proof.
  assert (Hpresent : is_Some (fs Sample.installed_world !! "node_modules")).
  { exists Dir. apply lookup_singleton_eq. }
  split; [exact Hpresent |].
  apply (ensure_installation_skips_when_installed Sample.bare_host "npm"
           Sample.installed_world Hpresent).
Defined.

(** ** The model at work *)

Example strip_then_first_line :
  PyStr.split_nl (PyStr.strip ("  /usr/bin/node" +:+ PyStr.nl +:+ "/opt/node" +:+ PyStr.nl))
  = ["/usr/bin/node"; "/opt/node"].
Proof. reflexivity. Qed.

Example len_counts_code_points : PyStr.len "❌ Error" = 7.
Proof. reflexivity. Qed.

Example manifest_size : String.length (Json.dumps 2 0 package_config) = 436%nat.
Proof. vm_compute. reflexivity. Qed.

Example default_script_size :
  String.length (create_script CONFIG "other" ∅) = 880%nat
  /\ PyStr.splitlines_len (create_script CONFIG "other" ∅) = 22.
Proof. split; vm_compute; reflexivity. Qed.

Example installation_runs_the_manager :
  issued (ensure_installation Sample.bare_host "npm") Sample.empty_world
  = [EvWrite "package.json" (Json.dumps 2 0 package_config);
     EvRun ["npm"; "install"] (Some 600)].
Proof. vm_compute. reflexivity. Qed.

(** * Further properties *)

(** ** The environment prober, continued *)

Section ProberQueries.

Context (h : Host).

(** One guarded query issues one child process, whatever comes of it. *)
Lemma locate_trace (prog : string) (w : World) :
  trace (snd (SystemManager.locate h prog w))
  = trace w ++ [EvRun [SystemManager.discovery_command h; prog] None].
Proof.
  unfold SystemManager.locate, try_except, bind, subprocess_run, ret.
  destruct (host_run h [SystemManager.discovery_command h; prog] None w)
    as [[cp|e] f]; cbn [fst snd]; [| reflexivity].
  destruct (returncode cp =? 0); [| reflexivity].
  unfold SystemManager.item0.
  destruct (PyStr.split_nl (PyStr.strip (stdout cp))); reflexivity.
Qed.

(** The first piece of [split_nl] is the text before the first line feed. *)
Lemma split_nl_first (s : string) :
  exists p ps,
    PyStr.split_nl s = p :: ps
    /\ JsLex.contains PyStr.LF p = false
    /\ ((s = p /\ ps = []) \/ exists r, s = p +:+ String PyStr.LF r).
Proof.
  induction s as [|a s IH].
  - exists EmptyString, []. cbn. auto.
  - destruct IH as (p & ps & Hsplit & Hfree & Hshape).
    cbn [PyStr.split_nl]. destruct (Ascii.eqb a PyStr.LF) eqn:Ea.
    + apply Ascii.eqb_eq in Ea. subst a.
      exists EmptyString, (PyStr.split_nl s). repeat split.
      right. exists s. reflexivity.
    + rewrite Hsplit. exists (String a p), ps. repeat split.
      * cbn [JsLex.contains]. rewrite Ea, Hfree. reflexivity.
      * destruct Hshape as [[-> ->] | [r ->]]; [left; auto |].
        right. exists r. reflexivity.
Qed.

(** X1: [find_executables] starts exactly two child processes, first the
    query for [node], then the query for [npm], both without a time limit;
    the command is [where] when [os.name] is [nt] and [which] otherwise.  It
    issues no other system call. *)
Theorem find_executables_queries (w : World) :
  issued (SystemManager.find_executables h) w
  = [EvRun [SystemManager.discovery_command h; "node"] None;
     EvRun [SystemManager.discovery_command h; "npm"] None]
  /\ (os_name h = "nt" -> SystemManager.discovery_command h = "where")
  /\ (os_name h ≠ "nt" -> SystemManager.discovery_command h = "which").
Proof.
  split.
  - unfold issued, SystemManager.find_executables, bind.
    pose proof (locate_trace "node" w) as H1.
    destruct (locate_returns h "node" w) as (n & Hn & _).
    destruct (SystemManager.locate h "node" w) as [r1 w1].
    cbn [fst snd] in *. subst r1.
    pose proof (locate_trace "npm" w1) as H2.
    destruct (locate_returns h "npm" w1) as (m & Hm & _).
    destruct (SystemManager.locate h "npm" w1) as [r2 w2].
    cbn [fst snd] in *. subst r2. cbn [snd ret].
    rewrite H2, H1, <- app_assoc, drop_app_length. reflexivity.
  - unfold SystemManager.discovery_command. split.
    + intros ->. reflexivity.
    + intros Hne. destruct (String.eqb (os_name h) "nt") eqn:E; [| reflexivity].
      apply String.eqb_eq in E. contradiction.
Qed.

(** X2: when the discovery command ends with status zero, the path found is
    the text of the stripped output before its first line feed: it holds no
    line feed, and it is the whole stripped output when that is one line. *)
Theorem located_path_is_first_line
    (prog : string) (w : World) (cp : CompletedProcess) (f : gmap string node) :
  host_run h [SystemManager.discovery_command h; prog] None w = (Ret cp, f) ->
  returncode cp = 0 ->
  exists p,
    fst (SystemManager.locate h prog w) = Ret (Some p)
    /\ JsLex.contains PyStr.LF p = false
    /\ (PyStr.strip (stdout cp) = p
        \/ exists r, PyStr.strip (stdout cp) = p +:+ String PyStr.LF r).
Proof.
  intros Hrun Hcode.
  unfold SystemManager.locate, try_except, bind, subprocess_run, ret.
  rewrite Hrun, Hcode. cbn [fst snd Z.eqb].
  destruct (split_nl_first (PyStr.strip (stdout cp)))
    as (p & ps & Hsplit & Hfree & Hshape).
  rewrite Hsplit. cbn [SystemManager.item0 ret fst].
  exists p. repeat split; [exact Hfree |].
  destruct Hshape as [[Hs _] | Hr]; auto.
Qed.

End ProberQueries.

(** X2 at work: a host that lists two installations. *)
Lemma located_path_is_first_line_witness :
  exists p,
    fst (SystemManager.locate Scenario.working_host "node" Sample.empty_world)
    = Ret (Some p)
    /\ JsLex.contains PyStr.LF p = false
    /\ (PyStr.strip (stdout Scenario.listing)  = p
        \/ exists r, PyStr.strip (stdout Scenario.listing) = p +:+ String PyStr.LF r).
Proof.
  apply (located_path_is_first_line Scenario.working_host "node"
           Sample.empty_world Scenario.listing ∅); reflexivity.
Defined.

Section Validation.

Context (h : Host).

(** [find_executables] as a pair and a world. *)
Lemma find_executables_returns (w : World) :
  exists node_path npm_path,
    SystemManager.find_executables h w
    = (Ret (node_path, npm_path), snd (SystemManager.find_executables h w))
    /\ (query_fails h "node" w -> node_path = None).
Proof.
  unfold SystemManager.find_executables, bind.
  destruct (locate_returns h "node" w) as (n & Hn & Hfails).
  destruct (SystemManager.locate h "node" w) as [r1 w1].
  cbn [fst] in Hn. subst r1.
  destruct (locate_returns h "npm" w1) as (m & Hm & _).
  destruct (SystemManager.locate h "npm" w1) as [r2 w2].
  cbn [fst] in Hm. subst r2.
  exists n, m. split; [reflexivity | exact Hfails].
Qed.

(** X3: [validate_environment] never raises.  When the query for [node]
    fails it answers [(False, None, None)], whatever the query for [npm]
    found, and starts no version query: the two discovery queries are all it
    issues. *)
Theorem validate_environment_without_node (w : World) :
  (exists v, fst (SystemManager.validate_environment h w) = Ret v)
  /\ (query_fails h "node" w ->
      fst (SystemManager.validate_environment h w) = Ret (false, None, None)
      /\ issued (SystemManager.validate_environment h) w
         = issued (SystemManager.find_executables h) w).
Proof.
  unfold issued, SystemManager.validate_environment, bind.
  destruct (find_executables_returns w) as (n & m & Hfind & Hfails).
  rewrite Hfind. cbn [fst snd].
  set (w1 := snd (SystemManager.find_executables h w)).
  split.
  - destruct (SystemManager.falsy n); [eexists; reflexivity |].
    unfold try_except, bind, subprocess_run, ret.
    destruct (host_run h [default EmptyString n; "--version"] (Some 10) w1)
      as [[cp|e] f]; eexists; reflexivity.
  - intros Hq. rewrite (Hfails Hq). cbn [SystemManager.falsy ret fst snd].
    split; reflexivity.
Qed.

(** X4: [validate_environment] answers [True] only when a path for [node]
    was found, that path is not empty, and the runtime, started on
    [--version] with a limit of 10 seconds, ended with status zero; the paths
    it hands back are then the ones [find_executables] found. *)
Theorem validate_environment_healthy
    (w : World) (node_path npm_path : option string) :
  fst (SystemManager.validate_environment h w) = Ret (true, node_path, npm_path) ->
  fst (SystemManager.find_executables h w) = Ret (node_path, npm_path)
  /\ exists p cp f,
       node_path = Some p /\ p ≠ EmptyString
       /\ host_run h [p; "--version"] (Some 10)
            (snd (SystemManager.find_executables h w)) = (Ret cp, f)
       /\ returncode cp = 0.
Proof.
  unfold SystemManager.validate_environment, bind.
  destruct (find_executables_returns w) as (n & m & Hfind & _).
  rewrite Hfind. cbn [fst snd].
  set (w1 := snd (SystemManager.find_executables h w)).
  destruct n as [p|]; cbn [SystemManager.falsy]; [| intros [=]].
  destruct p as [|a p]; cbn [PyStr.truthy negb]; [intros [=] |].
  change (default EmptyString (Some (String a p))) with (String a p).
  unfold try_except, bind, subprocess_run, ret.
  destruct (host_run h [String a p; "--version"] (Some 10) w1)
    as [[cp|e] f] eqn:Hrun; cbn [fst]; [| intros [=]].
  intros [= Hcode <- <-]. split; [reflexivity |].
  exists (String a p), cp, f. repeat split; try congruence.
  apply Z.eqb_eq. exact Hcode.
Qed.

(** X5: when the runtime was found but the version query ends with a
    non-zero status, the answer is [False] together with the paths found;
    when the version query raises, the paths are dropped. *)
Theorem validate_environment_probe_fails
    (w : World) (p : string) (npm_path : option string) :
  fst (SystemManager.find_executables h w) = Ret (Some p, npm_path) ->
  p ≠ EmptyString ->
  match fst (host_run h [p; "--version"] (Some 10)
               (snd (SystemManager.find_executables h w))) with
  | Ret cp =>
      fst (SystemManager.validate_environment h w)
      = Ret (returncode cp =? 0, Some p, npm_path)
  | Raise _ =>
      fst (SystemManager.validate_environment h w) = Ret (false, None, None)
  end.
Proof.
  intros Hfound Hp.
  unfold SystemManager.validate_environment, bind.
  destruct (SystemManager.find_executables h w) as [r w1].
  cbn [fst snd] in *. subst r. cbn [fst snd SystemManager.falsy].
  destruct p as [|a p]; [congruence |]. cbn [PyStr.truthy negb].
  change (default EmptyString (Some (String a p))) with (String a p).
  unfold try_except, bind, subprocess_run, ret.
  destruct (host_run h [String a p; "--version"] (Some 10) w1)
    as [[cp|e] f]; reflexivity.
Qed.

End Validation.

(** X3 at work: a host without the runtime. *)
Lemma validate_environment_without_node_witness :
  fst (SystemManager.validate_environment Sample.bare_host Sample.empty_world)
  = Ret (false, None, None).
Proof.
  destruct (validate_environment_without_node Sample.bare_host Sample.empty_world)
    as [_ H].
  apply H. cbn. discriminate.
Defined.

(** X4 at work: a host with a working runtime. *)
Lemma validate_environment_healthy_witness :
  fst (SystemManager.find_executables Scenario.working_host Sample.empty_world)
  = Ret (Some "/usr/bin/node", Some "/usr/bin/npm").
Proof.
  apply (validate_environment_healthy Scenario.working_host Sample.empty_world
           (Some "/usr/bin/node") (Some "/usr/bin/npm")).
  vm_compute. reflexivity.
Defined.

(** X5 at work: a runtime that is found but does not start. *)
Lemma validate_environment_probe_fails_witness :
  fst (SystemManager.validate_environment Scenario.broken_runtime_host
         Sample.empty_world)
  = Ret (false, Some "/usr/bin/node", Some "/usr/bin/npm").
Proof.
  pose proof (validate_environment_probe_fails Scenario.broken_runtime_host
                Sample.empty_world "/usr/bin/node" (Some "/usr/bin/npm")) as H.
  apply H; [vm_compute; reflexivity | discriminate].
Defined.

(** ** The dependency installer, continued *)

Section Installation.

Context (h : Host).

(** The manifest text [ensure_installation] writes. *)
Local Abbreviation manifest := (Json.dumps 2 0 package_config).

(** The call on a world that holds [node_modules]. *)
Lemma ensure_installation_present (npm_path : string) (w : World) :
  is_Some (fs w !! "node_modules") ->
  ensure_installation h npm_path w
  = (Ret [("success", VBool true);
          ("message", VStr "Dependencies already installed")], w).
Proof.
  intros Hpresent. unfold ensure_installation, bind, path_exists.
  rewrite bool_decide_eq_true_2 by exact Hpresent. reflexivity.
Qed.

(** The call on a world without [node_modules] is the guarded body. *)
Lemma ensure_installation_absent (npm_path : string) (w : World) :
  fs w !! "node_modules" = None ->
  ensure_installation h npm_path w
  = try_except
      (write_file h "package.json" manifest ;;;
       cfg <- get_config ;;
       result <- subprocess_run h [npm_path; "install"]
                   (Some (installation_timeout cfg)) ;;
       ret [("success", VBool (returncode result =? 0));
            ("message",
              VStr (if returncode result =? 0 then "Installation successful"
                    else stderr result));
            ("details",
              VDict [("stdout", VStr (stdout result));
                     ("stderr", VStr (stderr result));
                     ("return_code", VInt (returncode result))])])
      (fun e =>
         if is_Exception e then
           Some (ret [("success", VBool false);
                      ("message", VStr (exn_str e));
                      ("details", VDict [("error", VStr (exn_str e))])])
         else None) w.
Proof.
  intros Habsent. unfold ensure_installation at 1, bind at 1, path_exists.
  rewrite bool_decide_eq_false_2; [reflexivity |].
  rewrite Habsent. intros [x Hx]. discriminate.
Qed.

(** Unfolds an installation down to the answers of the host. *)
Ltac install_steps :=
  unfold try_except, bind, ret, raise, get_config, write_file, subprocess_run,
    written, put_file, with_fs, log, os_exn in *;
  cbn [fst snd config fs trace is_Exception] in *.

(** Without [node_modules] the first system call is the write of the
    manifest. *)
Lemma installation_starts_with_manifest (npm_path : string) (w : World) :
  fs w !! "node_modules" = None ->
  exists tail,
    issued (ensure_installation h npm_path) w
    = EvWrite "package.json" manifest :: tail.
Proof.
  intros Habsent. unfold issued.
  rewrite (ensure_installation_absent npm_path w Habsent).
  install_steps.
  destruct (fs w !! "package.json") as [[c|]|];
    cbn [fst snd config fs trace is_Exception];
    try (exists []; rewrite drop_app_length; reflexivity);
    destruct (host_write h "package.json" manifest w) as [|e|part e];
    cbn [fst snd config fs trace is_Exception];
    try (destruct (is_Exception e); cbn [fst snd config fs trace is_Exception];
         exists []; rewrite drop_app_length; reflexivity);
    match goal with
    | |- context [host_run h ?a ?l ?x] =>
        destruct (host_run h a l x) as [[cp|e] f]
    end;
    cbn [fst snd config fs trace is_Exception];
    try (destruct (is_Exception e)); cbn [fst snd config fs trace is_Exception];
    rewrite <- app_assoc, drop_app_length; eexists; reflexivity.
Qed.

(** X6: without [node_modules], [ensure_installation] first writes the fixed
    manifest to [package.json], replacing what was there, and then starts
    [npm install] under the installation time limit; the package manager is
    started exactly when the write went through. *)
Theorem ensure_installation_writes_then_installs
    (npm_path : string) (w : World) :
  fs w !! "node_modules" = None ->
  exists tail,
    issued (ensure_installation h npm_path) w
    = EvWrite "package.json" manifest :: tail
    /\ (tail = []
        \/ tail = [EvRun [npm_path; "install"]
                     (Some (installation_timeout (config w)))])
    /\ (tail ≠ [] <->
        fs w !! "package.json" ≠ Some Dir
        /\ host_write h "package.json" manifest w = Written).
Proof.
  intros Habsent. unfold issued.
  rewrite (ensure_installation_absent npm_path w Habsent).
  install_steps.
  destruct (fs w !! "package.json") as [[c|]|] eqn:Hpath;
    cbn [fst snd config fs trace is_Exception].
  2: { exists []. rewrite drop_app_length.
       split; [reflexivity |]. split; [left; reflexivity |].
       split; [intros Hne; congruence | intros [Hd Hw]; congruence]. }
  all: destruct (host_write h "package.json" manifest w)
         as [|e|part e] eqn:Hwrite;
       cbn [fst snd config fs trace is_Exception].
  all: try (destruct (is_Exception e); cbn [fst snd config fs trace is_Exception];
            exists []; rewrite drop_app_length;
            (split; [reflexivity |]); (split; [left; reflexivity |]);
            (split; [intros Hne; congruence | intros [Hd Hw]; congruence])).
  all: match goal with
       | |- context [host_run h ?a ?l ?x] =>
           destruct (host_run h a l x) as [[cp|e] f]
       end;
       cbn [fst snd config fs trace is_Exception];
       try (destruct (is_Exception e)); cbn [fst snd config fs trace is_Exception];
       rewrite <- app_assoc, drop_app_length;
       eexists [_]; (split; [reflexivity |]); (split; [right; reflexivity |]);
       (split; [intros _; split; congruence | intros _; discriminate]).
Qed.

(** X7: when the manifest was written and the package manager completed, the
    outcome has [success] true exactly for status zero; its [message] is
    [Installation successful] then and the captured standard error
    otherwise, and [details] carry both streams and the status.  The file
    system is the one the package manager left. *)
Theorem ensure_installation_reports_completion
    (npm_path : string) (w : World) (cp : CompletedProcess)
    (f : gmap string node) :
  fs w !! "node_modules" = None ->
  fs w !! "package.json" ≠ Some Dir ->
  host_write h "package.json" manifest w = Written ->
  host_run h [npm_path; "install"] (Some (installation_timeout (config w)))
    (written w "package.json" manifest) = (Ret cp, f) ->
  exists d,
    fst (ensure_installation h npm_path w) = Ret d
    /\ fs (snd (ensure_installation h npm_path w)) = f
    /\ (py_get "success" d = Some (VBool true) <-> returncode cp = 0)
    /\ (returncode cp = 0 ->
        py_get "message" d = Some (VStr "Installation successful"))
    /\ (returncode cp ≠ 0 -> py_get "message" d = Some (VStr (stderr cp)))
    /\ py_get "details" d
       = Some (VDict [("stdout", VStr (stdout cp));
                      ("stderr", VStr (stderr cp));
                      ("return_code", VInt (returncode cp))]).
Proof.
  intros Habsent Hdir Hwrite Hrun.
  rewrite (ensure_installation_absent npm_path w Habsent).
  unfold try_except, bind, ret, get_config, write_file, subprocess_run.
  rewrite Hwrite.
  assert (Hstep : forall o : option node, o ≠ Some Dir ->
            match o with
            | Some Dir =>
                (@Raise unit (os_exn h IsDirectory "package.json"),
                 log w (EvWrite "package.json" manifest))
            | _ => (Ret tt, written w "package.json" manifest)
            end = (Ret tt, written w "package.json" manifest)).
  { intros [[c|]|] Ho; congruence. }
  rewrite (Hstep _ Hdir).
  change (config (written w "package.json" manifest)) with (config w).
  rewrite Hrun. cbn [fst snd with_fs fs].
  eexists. split; [reflexivity |]. split; [reflexivity |].
  cbn [py_get String.eqb Ascii.eqb Bool.eqb].
  repeat split.
  - intros [= H0]. apply Z.eqb_eq. exact H0.
  - intros ->. reflexivity.
  - intros ->. reflexivity.
  - intros Hne. apply Z.eqb_neq in Hne. rewrite Hne. reflexivity.
Qed.

(** X8: an exception of class [Exception] raised by the package manager run,
    a timeout included, is turned into an outcome with [success] false whose
    [message] and [details] carry [str(e)]; nothing tells a timeout from
    another failure. *)
Theorem ensure_installation_reports_exception
    (npm_path : string) (w : World) (e : exn) (f : gmap string node) :
  fs w !! "node_modules" = None ->
  fs w !! "package.json" ≠ Some Dir ->
  host_write h "package.json" manifest w = Written ->
  host_run h [npm_path; "install"] (Some (installation_timeout (config w)))
    (written w "package.json" manifest) = (Raise e, f) ->
  is_Exception e = true ->
  fst (ensure_installation h npm_path w)
  = Ret [("success", VBool false);
         ("message", VStr (exn_str e));
         ("details", VDict [("error", VStr (exn_str e))])].
Proof.
  intros Habsent Hdir Hwrite Hrun Hclass.
  rewrite (ensure_installation_absent npm_path w Habsent).
  unfold try_except, bind, ret, get_config, write_file, subprocess_run.
  rewrite Hwrite.
  destruct (fs w !! "package.json") as [[c|]|]; try congruence;
    change (config (written w "package.json" manifest)) with (config w);
    rewrite Hrun; cbn [fst snd]; rewrite Hclass; reflexivity.
Qed.

(** X9: once the existence check has found no [node_modules], all that
    [ensure_installation] does is inside its [try]: it raises only what is
    outside [Exception] (a keyboard interrupt, a system exit), and every
    other failure of the write or of the package manager comes back as an
    outcome. *)
Theorem ensure_installation_raises_only_base
    (npm_path : string) (w : World) (e : exn) :
  fs w !! "node_modules" = None ->
  fst (ensure_installation h npm_path w) = Raise e ->
  is_Exception e = false.
Proof.
  intros Hmod.
  rewrite (ensure_installation_absent npm_path w Hmod).
  install_steps.
  destruct (fs w !! "package.json") as [[c|]|];
    cbn [fst snd is_Exception]; try discriminate.
  all: destruct (host_write h "package.json" manifest w) as [|e'|part e'];
    cbn [fst snd].
  all: try (match goal with
            | |- context [host_run h ?a ?l ?x] =>
                destruct (host_run h a l x) as [[cp|e'] f]
            end; cbn [fst snd]; try discriminate).
  all: destruct (is_Exception e') eqn:Hclass; cbn [fst snd];
    [discriminate | intros [= <-]; exact Hclass].
Qed.

(** X10: the installer creates [node_modules] only through the package
    manager.  When the manager left the directory in place, the next call
    returns at once and issues nothing; when it did not, the next call
    writes the manifest again. *)
Theorem ensure_installation_again
    (npm_path : string) (w : World) (r : result CompletedProcess)
    (f : gmap string node) :
  fs w !! "node_modules" = None ->
  fs w !! "package.json" ≠ Some Dir ->
  host_write h "package.json" manifest w = Written ->
  host_run h [npm_path; "install"] (Some (installation_timeout (config w)))
    (written w "package.json" manifest) = (r, f) ->
  let w' := snd (ensure_installation h npm_path w) in
  (is_Some (f !! "node_modules") ->
   issued (ensure_installation h npm_path) w' = []
   /\ fst (ensure_installation h npm_path w')
      = Ret [("success", VBool true);
             ("message", VStr "Dependencies already installed")])
  /\ (f !! "node_modules" = None ->
      exists tail,
        issued (ensure_installation h npm_path) w'
        = EvWrite "package.json" manifest :: tail).
Proof.
  intros Habsent Hdir Hwrite Hrun w'.
  assert (Hfs : fs w' = f).
  { subst w'. rewrite (ensure_installation_absent npm_path w Habsent).
    unfold try_except, bind, ret, get_config, write_file, subprocess_run.
    rewrite Hwrite.
    destruct (fs w !! "package.json") as [[c|]|]; try congruence;
      change (config (written w "package.json" manifest)) with (config w);
      rewrite Hrun; destruct r as [cp|e]; cbn [fst snd];
      try (destruct (is_Exception e)); reflexivity. }
  split.
  - intros Hpresent. rewrite <- Hfs in Hpresent.
    unfold issued. rewrite (ensure_installation_present npm_path w' Hpresent).
    cbn [fst snd]. split; [apply drop_all | reflexivity].
  - intros Hnone. rewrite <- Hfs in Hnone.
    apply installation_starts_with_manifest. exact Hnone.
Qed.

End Installation.

(** X6 at work: a first installation on a working host. *)
Lemma ensure_installation_writes_then_installs_witness :
  exists tail,
    issued (ensure_installation Scenario.working_host "/usr/bin/npm")
      Sample.empty_world
    = EvWrite "package.json" (Json.dumps 2 0 package_config) :: tail
    /\ (tail = []
        \/ tail = [EvRun ["/usr/bin/npm"; "install"] (Some 600)])
    /\ (tail ≠ [] <->
        fs Sample.empty_world !! "package.json" ≠ Some Dir
        /\ host_write Scenario.working_host "package.json"
             (Json.dumps 2 0 package_config) Sample.empty_world = Written).
Proof.
  apply (ensure_installation_writes_then_installs Scenario.working_host
           "/usr/bin/npm" Sample.empty_world).
  reflexivity.
Defined.

(** X7 at work: a package manager that fails. *)
Lemma ensure_installation_reports_completion_witness :
  exists d,
    fst (ensure_installation Scenario.failing_manager_host "npm"
           Sample.empty_world) = Ret d
    /\ fs (snd (ensure_installation Scenario.failing_manager_host "npm"
                  Sample.empty_world))
       = <["package.json" := File (Json.dumps 2 0 package_config)]> ∅
    /\ (py_get "success" d = Some (VBool true) <-> 1 = 0)
    /\ (1 = 0 -> py_get "message" d = Some (VStr "Installation successful"))
    /\ (1 ≠ 0 -> py_get "message" d = Some (VStr "npm ERR! network timeout"))
    /\ py_get "details" d
       = Some (VDict [("stdout", VStr EmptyString);
                      ("stderr", VStr "npm ERR! network timeout");
                      ("return_code", VInt 1)]).
Proof.
  apply (ensure_installation_reports_completion
           Scenario.failing_manager_host "npm" Sample.empty_world
           {| returncode := 1; stdout := EmptyString;
              stderr := "npm ERR! network timeout" |}
           (<["package.json" := File (Json.dumps 2 0 package_config)]> ∅)).
  - reflexivity.
  - cbn. rewrite lookup_empty. discriminate.
  - reflexivity.
  - reflexivity.
Defined.

(** X8 at work: a host on which the package manager cannot be started. *)
Lemma ensure_installation_reports_exception_witness :
  fst (ensure_installation Scenario.no_exec_host "npm" Sample.empty_world)
  = Ret [("success", VBool false);
         ("message",
           VStr "[WinError 2] The system cannot find the file specified");
         ("details",
           VDict [("error",
                    VStr "[WinError 2] The system cannot find the file specified")])].
Proof.
  apply (ensure_installation_reports_exception Scenario.no_exec_host "npm"
           Sample.empty_world
           (PyException "FileNotFoundError"
              "[WinError 2] The system cannot find the file specified")
           (<["package.json" := File (Json.dumps 2 0 package_config)]> ∅)).
  - reflexivity.
  - cbn. rewrite lookup_empty. discriminate.
  - reflexivity.
  - reflexivity.
  - reflexivity.
Defined.

(** X9 at work: the user interrupts the package manager. *)
Lemma ensure_installation_raises_only_base_witness :
  fst (ensure_installation Scenario.interrupted_host "npm" Sample.empty_world)
  = Raise (PyBaseException "KeyboardInterrupt" EmptyString)
  /\ is_Exception (PyBaseException "KeyboardInterrupt" EmptyString) = false.
Proof.
  assert (H : fst (ensure_installation Scenario.interrupted_host "npm"
                     Sample.empty_world)
              = Raise (PyBaseException "KeyboardInterrupt" EmptyString)).
  { vm_compute. reflexivity. }
  split; [exact H |].
  apply (ensure_installation_raises_only_base Scenario.interrupted_host "npm"
           Sample.empty_world _ eq_refl H).
Defined.

(** X10 at work: after an installation that went through, the next call
    issues nothing. *)
Lemma ensure_installation_again_witness :
  issued (ensure_installation Scenario.working_host "npm")
    (snd (ensure_installation Scenario.working_host "npm" Sample.empty_world))
  = [].
Proof.
  apply (ensure_installation_again Scenario.working_host "npm"
           Sample.empty_world (Ret (Scenario.printed "added 1 package"))
           (<["node_modules" := Dir]>
              (<["package.json" := File (Json.dumps 2 0 package_config)]> ∅))).
  - reflexivity.
  - cbn. rewrite lookup_empty. discriminate.
  - reflexivity.
  - reflexivity.
  - exists Dir. apply lookup_insert_eq.
Defined.

(** ** The process runner, continued *)

Section RunnerFailures.

Context (h : Host).

(** Unfolds an execution down to the answers of the host. *)
Ltac run_steps :=
  unfold issued, execute_script, run_script, on_exception, swallow,
    try_finally, try_except, bind, ret, raise, get_config, write_file,
    subprocess_run, os_remove, written, put_file, with_fs, log, os_exn in *;
  cbn [fst snd config fs trace] in *.

(** X11: the child process is started exactly when the script was written
    in full: not when the script path is a directory, not when [open] was
    refused, not when the write broke off. *)
Theorem execute_script_spawns_after_write
    (node_path script : string) (w : World) :
  spawns (issued (execute_script h node_path script) w) = true
  <-> fs w !! script_file ≠ Some Dir
      /\ host_write h script_file script w = Written.
Proof.
  unfold issued, execute_script, try_finally.
  assert (Hbody :
    let w1 := snd (try_except (run_script h node_path script) on_exception w) in
    (fs w !! script_file ≠ Some Dir
     /\ host_write h script_file script w = Written
     /\ trace w1 = trace w ++ [EvWrite script_file script;
                              EvRun [node_path; script_file]
                                (Some (timeout (config w)))])
    \/ ((fs w !! script_file = Some Dir
         \/ host_write h script_file script w ≠ Written)
        /\ trace w1 = trace w ++ [EvWrite script_file script])).
  { unfold run_script, on_exception, try_except, bind, ret, get_config,
      write_file, subprocess_run, written, put_file, with_fs, log.
    cbn [fst snd config fs trace].
    destruct (fs w !! script_file) as [[c|]|];
      cbn [fst snd config fs trace];
      try (right; split; [left; reflexivity | reflexivity]).
    all: destruct (host_write h script_file script w) as [|e|part e];
      cbn [fst snd config fs trace].
    all: try (destruct e; cbn [fst snd config fs trace];
              right; (split; [right; congruence | reflexivity])).
    all: match goal with
         | |- context [host_run h ?a ?l ?x] =>
             destruct (host_run h a l x) as [[cp|e] f]
         end;
      cbn [fst snd config fs trace];
      try destruct e; cbn [fst snd config fs trace];
      rewrite <- app_assoc; left; repeat split; congruence. }
  destruct (try_except (run_script h node_path script) on_exception w) as [r w1].
  cbn [snd] in Hbody.
  pose proof (cleanup_spec h w1) as (_ & _ & Hlast & _).
  assert (Hw2 : trace (snd (let (r0, w2) := swallow (os_remove h script_file) w1 in
                            match r0 with
                            | Ret _ => (r, w2)
                            | Raise e => (Raise e, w2)
                            end))
                = trace w1 ++ [EvRemove script_file]).
  { destruct (swallow (os_remove h script_file) w1) as [[u|e] w2]; exact Hlast. }
  rewrite Hw2.
  destruct Hbody as [(Hd & Hw & ->) | (Hno & ->)];
    rewrite <- app_assoc, drop_app_length; cbn [spawns app].
  - split; auto.
  - split; [discriminate |]. intros [Hd Hw]. destruct Hno; contradiction.
Qed.

(** X12: when the child process cannot be started or its output cannot be
    read (an exception of class [Exception] other than a timeout), the call
    returns [success] false, an [error] that begins with [Execution error:]
    and carries [str(e)], and the type name and message under [details]. *)
Theorem execute_script_reports_exception
    (node_path script : string) (w : World) (ty msg : string)
    (f : gmap string node) :
  fs w !! script_file ≠ Some Dir ->
  host_write h script_file script w = Written ->
  host_run h [node_path; script_file] (Some (timeout (config w)))
    (written w script_file script) = (Raise (PyException ty msg), f) ->
  exists d,
    fst (execute_script h node_path script w) = Ret d
    /\ py_get "success" d = Some (VBool false)
    /\ py_get "error" d = Some (VStr ("Execution error: " +:+ msg))
    /\ py_get "details" d
       = Some (VDict [("exception_type", VStr ty);
                      ("exception_message", VStr msg)]).
Proof.
  intros Hdir Hwrite Hrun.
  exists (error_result (PyException ty msg)).
  split; [| repeat split].
  unfold execute_script, try_finally.
  assert (Hbody : fst (try_except (run_script h node_path script) on_exception w)
                  = Ret (error_result (PyException ty msg))).
  { unfold try_except, run_script, bind, get_config, write_file, subprocess_run, ret.
    rewrite Hwrite.
    destruct (fs w !! script_file) as [[c|]|]; try congruence;
      change (config (written w script_file script)) with (config w);
      rewrite Hrun; reflexivity. }
  destruct (try_except (run_script h node_path script) on_exception w) as [r w1].
  cbn [fst] in Hbody. subst r.
  pose proof (cleanup_spec h w1) as [Hret _].
  destruct (swallow (os_remove h script_file) w1) as [[u|e] w2];
    cbn [fst] in Hret; [reflexivity | discriminate].
Qed.

(** X13: [execute_script] raises only what is outside [Exception] (a
    keyboard interrupt, a system exit); every failure of class [Exception]
    comes back as a dictionary. *)
Theorem execute_script_raises_only_base
    (node_path script : string) (w : World) (e : exn) :
  fst (execute_script h node_path script w) = Raise e ->
  exists ty msg, e = PyBaseException ty msg.
Proof.
  unfold execute_script, try_finally.
  assert (Hbody : forall e',
            fst (try_except (run_script h node_path script) on_exception w)
            = Raise e' -> exists ty msg, e' = PyBaseException ty msg).
  { unfold run_script, on_exception, try_except, bind, ret, get_config,
      write_file, subprocess_run.
    destruct (fs w !! script_file) as [[c|]|]; cbn [fst snd];
      try discriminate.
    all: destruct (host_write h script_file script w) as [|e1|part e1];
      cbn [fst snd].
    all: try (match goal with
              | |- context [host_run h ?a ?l ?x] =>
                  destruct (host_run h a l x) as [[cp|e1] f]
              end; cbn [fst snd]; try discriminate).
    all: destruct e1; cbn [fst snd]; try discriminate;
      intros e' [= <-]; eauto. }
  destruct (try_except (run_script h node_path script) on_exception w) as [r w1].
  pose proof (cleanup_spec h w1) as [Hret _].
  destruct (swallow (os_remove h script_file) w1) as [[u|e2] w2];
    cbn [fst] in Hret; [| discriminate].
  cbn [fst]. intros ->. apply Hbody. reflexivity.
Qed.

(** X14: when the script path is a directory, the call returns the error
    dictionary for the [OSError] with which the platform refuses to open a
    directory for writing, starts no child process, and leaves the file
    system as it was: the directory stays. *)
Theorem execute_script_on_directory
    (node_path script : string) (w : World) :
  fs w !! script_file = Some Dir ->
  fst (execute_script h node_path script w)
  = Ret (error_result (os_exn h IsDirectory script_file))
  /\ py_get "error"
       (error_result (os_exn h IsDirectory script_file))
     = Some (VStr ("Execution error: "
                   +:+ snd (os_error h IsDirectory script_file)))
  /\ issued (execute_script h node_path script) w
     = [EvWrite script_file script; EvRemove script_file]
  /\ fs (snd (execute_script h node_path script w)) = fs w.
Proof.
  intros Hdir. run_steps. rewrite Hdir. cbn [fst snd config fs trace].
  rewrite Hdir. cbn [fst snd config fs trace].
  rewrite <- app_assoc, drop_app_length. auto.
Qed.


End RunnerFailures.

(** X12 at work: the runtime cannot be started. *)
Lemma execute_script_reports_exception_witness :
  exists d,
    fst (execute_script Scenario.no_exec_host "node" "x" Sample.empty_world)
    = Ret d
    /\ py_get "success" d = Some (VBool false)
    /\ py_get "error" d
       = Some (VStr ("Execution error: "
                     +:+ "[WinError 2] The system cannot find the file specified"))
    /\ py_get "details" d
       = Some (VDict [("exception_type", VStr "FileNotFoundError");
                      ("exception_message",
                        VStr "[WinError 2] The system cannot find the file specified")]).
Proof.
  apply (execute_script_reports_exception Scenario.no_exec_host "node" "x"
           Sample.empty_world "FileNotFoundError"
           "[WinError 2] The system cannot find the file specified"
           (<[script_file := File "x"]> ∅)).
  - cbn. rewrite lookup_empty. discriminate.
  - reflexivity.
  - reflexivity.
Defined.

(** X13 at work: the user interrupts the child process. *)
Lemma execute_script_raises_only_base_witness :
  fst (execute_script Scenario.interrupted_host "node" "x" Sample.empty_world)
  = Raise (PyBaseException "KeyboardInterrupt" EmptyString)
  /\ exists ty msg,
       PyBaseException "KeyboardInterrupt" EmptyString = PyBaseException ty msg.
Proof.
  assert (H : fst (execute_script Scenario.interrupted_host "node" "x"
                     Sample.empty_world)
              = Raise (PyBaseException "KeyboardInterrupt" EmptyString)).
  { vm_compute. reflexivity. }
  split; [exact H |].
  apply (execute_script_raises_only_base Scenario.interrupted_host "node" "x"
           Sample.empty_world _ H).
Defined.

(** X14 at work: a directory sits at the script path, on a POSIX host. *)
Lemma execute_script_on_directory_witness :
  py_get "error"
    (error_result (os_exn Scenario.working_host IsDirectory script_file))
  = Some (VStr ("Execution error: "
                +:+ "[Errno 21] Is a directory: 'temp_automation.js'"))
  /\ fst (execute_script Scenario.working_host "node" "x" Scenario.blocked_world)
     = Ret (error_result (os_exn Scenario.working_host IsDirectory script_file))
  /\ fs (snd (execute_script Scenario.working_host "node" "x"
                Scenario.blocked_world))
     = fs Scenario.blocked_world.
Proof.
  destruct (execute_script_on_directory Scenario.working_host "node" "x"
              Scenario.blocked_world) as (Hret & Herror & _ & Hkept).
  - apply lookup_singleton_eq.
  - split; [exact Herror |]. split; [exact Hret | exact Hkept].
Defined.


(** ** Output statistics *)

Section Statistics.

Lemma chars_nonempty (s : string) : s ≠ EmptyString -> PyStr.chars s ≠ [].
Proof.
  destruct s as [|a s]; [congruence |]. intros _. cbn [PyStr.chars].
  destruct (PyStr.chars s) as [|c r]; [discriminate |].
  destruct c as [|b c]; [discriminate |].
  destruct (PyStr.is_cont b); discriminate.
Qed.

(** A line count is at least zero and at most the number of characters,
    plus one for a line that is already open. *)
Lemma count_lines_bounds (n : nat) :
  forall (cs : list N) (b : bool),
    (length cs <= n)%nat ->
    0 <= PyStr.count_lines b cs
         <= Z.of_nat (length cs) + (if b then 1 else 0).
Proof.
  induction n as [|n IH]; intros cs b Hlen.
  - destruct cs; [| cbn in Hlen; lia]. destruct b; cbn; lia.
  - destruct cs as [|c r]; [destruct b; cbn; lia |].
    cbn [PyStr.count_lines length] in *.
    assert (Hb : 0 <= (if b then 1 else 0)) by (destruct b; lia).
    destruct (PyStr.is_linebreak c).
    + destruct r as [|d r']; [lia |].
      cbn [length] in *.
      destruct ((c =? 13)%N && (d =? 10)%N).
      * pose proof (IH r' false ltac:(lia)). lia.
      * pose proof (IH (d :: r') false ltac:(cbn [length]; lia)) as H.
        cbn [length] in H. lia.
    + pose proof (IH r true ltac:(lia)). lia.
Qed.

(** Once a line is open there is at least one line. *)
Lemma count_lines_open (n : nat) :
  forall cs : list N, (length cs <= n)%nat -> 1 <= PyStr.count_lines true cs.
Proof.
  induction n as [|n IH]; intros cs Hlen.
  - destruct cs; [cbn; lia | cbn in Hlen; lia].
  - destruct cs as [|c r]; [cbn; lia |].
    cbn [PyStr.count_lines length] in *.
    destruct (PyStr.is_linebreak c).
    + destruct r as [|d r']; [lia |].
      destruct ((c =? 13)%N && (d =? 10)%N).
      * pose proof (count_lines_bounds (length r') r' false ltac:(lia)). lia.
      * pose proof (count_lines_bounds (length (d :: r')) (d :: r') false
                      ltac:(lia)). lia.
    + apply IH. lia.
Qed.

Lemma splitlines_len_bounds (s : string) :
  0 <= PyStr.splitlines_len s <= PyStr.len s.
Proof.
  unfold PyStr.splitlines_len, PyStr.len.
  pose proof (count_lines_bounds _ (map PyStr.codepoint (PyStr.chars s)) false
                (le_n _)) as H.
  rewrite length_map in H. lia.
Qed.

Lemma splitlines_len_positive (s : string) :
  s ≠ EmptyString -> 1 <= PyStr.splitlines_len s.
Proof.
  intros Hs. unfold PyStr.splitlines_len.
  pose proof (chars_nonempty s Hs) as Hc.
  destruct (PyStr.chars s) as [|c r]; [congruence |].
  cbn [map PyStr.count_lines].
  set (cs := map PyStr.codepoint r).
  destruct (PyStr.is_linebreak (PyStr.codepoint c)).
  - destruct cs as [|d r'] eqn:E; [lia |].
    destruct ((PyStr.codepoint c =? 13)%N && (d =? 10)%N).
    + pose proof (count_lines_bounds (length r') r' false ltac:(lia)). lia.
    + pose proof (count_lines_bounds (length (d :: r')) (d :: r') false
                    ltac:(lia)). lia.
  - apply (count_lines_open (length cs)). lia.
Qed.

(** X16: in the dictionary of a completed run, a line count is zero exactly
    when its stream is empty and never exceeds the number of characters of
    the stream; the character total is the sum over both streams. *)
Theorem completed_result_statistics (cp : CompletedProcess) :
  exists n m,
    py_get "details" (completed_result cp)
    = Some (VDict [("stdout_lines", VInt n);
                   ("stderr_lines", VInt m);
                   ("total_output_chars",
                     VInt (PyStr.len (stdout cp) + PyStr.len (stderr cp)))])
    /\ (n = 0 <-> stdout cp = EmptyString)
    /\ (m = 0 <-> stderr cp = EmptyString)
    /\ 0 <= n <= PyStr.len (stdout cp)
    /\ 0 <= m <= PyStr.len (stderr cp).
Proof.
  assert (Hcount : forall s,
            let k := if PyStr.truthy s then PyStr.splitlines_len s else 0 in
            (k = 0 <-> s = EmptyString) /\ 0 <= k <= PyStr.len s).
  { intros s. cbv zeta. destruct s as [|a s]; cbn [PyStr.truthy].
    - change (PyStr.len EmptyString) with 0. split; [tauto | lia].
    - pose proof (splitlines_len_positive (String a s) ltac:(discriminate)).
      pose proof (splitlines_len_bounds (String a s)).
      split; [split; [lia | discriminate] | lia]. }
  eexists _, _. split.
  - cbn [py_get completed_result String.eqb Ascii.eqb Bool.eqb].
    assert (Hlen : PyStr.len (if PyStr.truthy (stderr cp) then stderr cp
                              else EmptyString) = PyStr.len (stderr cp)).
    { destruct (stderr cp); reflexivity. }
    rewrite Hlen. reflexivity.
  - destruct (Hcount (stdout cp)) as [H1 H2].
    destruct (Hcount (stderr cp)) as [H3 H4]. auto.
Qed.

End Statistics.

(** ** The script composer, continued *)

Section Composer.

Lemma append_length (a b : string) :
  String.length (a +:+ b) = (String.length a + String.length b)%nat.
Proof.
  induction a as [|x a IH]; [reflexivity |].
  change (S (String.length (a +:+ b)) = S (String.length a + String.length b)).
  rewrite IH. reflexivity.
Qed.

Lemma append_cancel_head (p a b : string) : p +:+ a = p +:+ b -> a = b.
Proof.
  induction p as [|x p IH]; [auto |].
  intros H. apply IH. injection H. auto.
Qed.

Lemma append_cancel_tail (a b s : string) : a +:+ s = b +:+ s -> a = b.
Proof.
  revert b. induction a as [|x a IH]; intros [|y b] H.
  - reflexivity.
  - apply (f_equal String.length) in H.
    change (String.length s = S (String.length (b +:+ s))) in H.
    rewrite append_length in H. lia.
  - apply (f_equal String.length) in H.
    change (S (String.length (a +:+ s)) = String.length s) in H.
    rewrite append_length in H. lia.
  - injection H as -> H. f_equal. apply IH. exact H.
Qed.

(** X17: of its keyword parameters [create_script] reads [url] alone, and
    only for the [research] action: every other action gives the same script
    whatever the parameters, two parameter maps with the same [url] give the
    same research script, and a missing [url] stands for
    [https://example.com]. *)
Theorem create_script_reads_only_url (cfg : Config) :
  (forall action k1 k2,
      action ≠ "research" ->
      create_script cfg action k1 = create_script cfg action k2)
  /\ (forall (k1 k2 : gmap string string),
        k1 !! "url" = k2 !! "url" ->
        create_script cfg "research" k1 = create_script cfg "research" k2)
  /\ (forall k : gmap string string,
        k !! "url" = None ->
        create_script cfg "research" k
        = create_script cfg "research" {["url" := "https://example.com"]}).
Proof.
  repeat split.
  - intros action k1 k2 Hne. unfold create_script.
    destruct (String.eqb action "demo"); [reflexivity |].
    destruct (String.eqb action "research") eqn:E; [| reflexivity].
    apply String.eqb_eq in E. contradiction.
  - intros k1 k2 Hurl. unfold create_script, url_of. rewrite Hurl. reflexivity.
  - intros k Hnone. unfold create_script, url_of.
    rewrite Hnone, lookup_singleton_eq. reflexivity.
Qed.

(** X18: of [CONFIG] the composed script reads the page-analysis timeout
    alone: two configurations that agree on it give the same script, whatever
    their viewport and other timeouts, and the script of an action other than
    [demo] and [research] is the same under every configuration. *)
Theorem create_script_reads_only_analysis_timeout
    (cfg1 cfg2 : Config) (action : string) (kwargs : gmap string string) :
  (analysis_timeout cfg1 = analysis_timeout cfg2 ->
   create_script cfg1 action kwargs = create_script cfg2 action kwargs)
  /\ (action ≠ "demo" -> action ≠ "research" ->
      create_script cfg1 action kwargs = create_script cfg2 action kwargs
      /\ create_script cfg1 action kwargs
         = (base_config +:+ default_body) +:+ script_epilogue).
Proof.
  split.
  - intros Heq. unfold create_script, research_body. rewrite Heq. reflexivity.
  - intros Hdemo Hresearch. unfold create_script.
    destruct (String.eqb action "demo") eqn:E1;
      [apply String.eqb_eq in E1; contradiction |].
    destruct (String.eqb action "research") eqn:E2;
      [apply String.eqb_eq in E2; contradiction |].
    split; reflexivity.
Qed.

(** X19: the research script determines the URL it was composed for: two
    URLs that give the same script are the same URL. *)
Theorem create_script_url_injective (cfg : Config) (url1 url2 : string) :
  create_script cfg "research" {["url" := url1]}
  = create_script cfg "research" {["url" := url2]} ->
  url1 = url2.
Proof.
  rewrite !research_script_split. intros H.
  apply append_cancel_head in H.
  apply append_cancel_tail in H. exact H.
Qed.

(** A plain text is read up to where it ends; what follows decides how the
    literal goes on. *)
Lemma single_quoted_after_plain (body s : string) :
  JsLex.plain body = true ->
  JsLex.single_quoted (body +:+ s)
  = match JsLex.single_quoted s with
    | Some (more, rest) => Some (body +:+ more, rest)
    | None => None
    end.
Proof.
  induction body as [|a body IH]; intros Hplain.
  - change (EmptyString +:+ s) with s.
    destruct (JsLex.single_quoted s) as [[more rest]|]; reflexivity.
  - cbn [JsLex.plain] in Hplain. apply andb_true_iff in Hplain as [Ha Hbody].
    apply negb_true_iff in Ha. unfold JsLex.special in Ha.
    apply orb_false_iff in Ha as [Ha Hcr].
    apply orb_false_iff in Ha as [Ha Hlf].
    apply orb_false_iff in Ha as [Hq Hb].
    change (String a body +:+ s) with (String a (body +:+ s)).
    cbn [JsLex.single_quoted].
    rewrite Hq, Hlf, Hcr, Hb. cbn [orb].
    rewrite (IH Hbody).
    destruct (JsLex.single_quoted s) as [[more rest]|]; reflexivity.
Qed.

(** What follows the URL in a research script: the closing quote, a
    semicolon and a line feed. *)
Lemma research_body_2_opening :
  research_body_2
  = String JsLex.quote
      (String ";"%char (String PyStr.LF (JsLex.skip 3 research_body_2))).
Proof. vm_compute. reflexivity. Qed.

(** X20: a single quote in the URL ends the literal there.  When the text
    before it is plain, the literal holds that text alone, and the rest of
    the URL stands in the script as program text, followed by the quote that
    was meant to close the literal. *)
Theorem quote_in_url_ends_literal (cfg : Config) (before rest : string) :
  JsLex.plain before = true ->
  JsLex.url_literal
    (create_script cfg "research"
       {["url" := before +:+ String JsLex.quote rest]})
  = Some (before, rest +:+ String JsLex.quote (after_url cfg)).
Proof.
  intros Hplain. unfold JsLex.url_literal.
  rewrite research_script_split, skip_append, append_assoc.
  change (String JsLex.quote rest
          +:+ String JsLex.quote
                (JsLex.skip 1 research_body_2
                 +:+ pretty (analysis_timeout cfg) +:+ research_body_3
                 +:+ script_epilogue))
    with (String JsLex.quote (rest +:+ String JsLex.quote (after_url cfg))).
  apply single_quoted_plain. exact Hplain.
Qed.

(** X21: when the text before it holds no quote, no backslash and no line
    break, a line feed in the URL, or a backslash at its end, leaves the
    literal without an end on its line: the composed script has an
    unterminated string literal. *)
Theorem line_break_in_url_opens_literal (cfg : Config) (before rest : string) :
  JsLex.plain before = true ->
  JsLex.url_literal
    (create_script cfg "research"
       {["url" := before +:+ String PyStr.LF rest]}) = None
  /\ JsLex.url_literal
       (create_script cfg "research"
          {["url" := before +:+ String JsLex.backslash EmptyString]}) = None.
Proof.
  intros Hplain. unfold JsLex.url_literal. split.
  - rewrite research_script_split, skip_append, append_assoc.
    rewrite (single_quoted_after_plain _ _ Hplain). reflexivity.
  - rewrite research_script_split, skip_append, append_assoc.
    rewrite (single_quoted_after_plain _ _ Hplain).
    change (JsLex.skip 1 research_body_2)
      with (JsLex.skip 1 (String JsLex.quote
              (String ";"%char
                 (String PyStr.LF (JsLex.skip 3 research_body_2))))).
    reflexivity.
Qed.

End Composer.

(** X19 at work. *)
Lemma create_script_url_injective_witness :
  "https://example.com" = "https://example.com".
Proof.
  apply (create_script_url_injective CONFIG). reflexivity.
Defined.

(** X20 at work: the URL of the counterexample to C5. *)
Lemma quote_in_url_ends_literal_witness :
  JsLex.url_literal
    (create_script CONFIG "research"
       {["url" := ("https://example.com/?q=" +:+ PyStr.dq)
                  +:+ String JsLex.quote ";process.exit(0);//"]})
  = Some ("https://example.com/?q=" +:+ PyStr.dq,
          ";process.exit(0);//" +:+ String JsLex.quote (after_url CONFIG)).
Proof.
  apply (quote_in_url_ends_literal CONFIG
           ("https://example.com/?q=" +:+ PyStr.dq) ";process.exit(0);//").
  reflexivity.
Defined.

(** X21 at work: a URL pasted with a line feed inside, and one that ends
    with a backslash. *)
Lemma line_break_in_url_opens_literal_witness :
  JsLex.url_literal
    (create_script CONFIG "research"
       {["url" := "https://example.com" +:+ String PyStr.LF "/path"]}) = None
  /\ JsLex.url_literal
       (create_script CONFIG "research"
          {["url" := "https://example.com"
                     +:+ String JsLex.backslash EmptyString]}) = None.
Proof.
  apply (line_break_in_url_opens_literal CONFIG "https://example.com" "/path").
  reflexivity.
Defined.

(** ** The metrics loop *)

Section Metrics.

Import Presenter.

(** A character of the pattern is a character of the text it starts. *)
Lemma starts_with_contains (c : ascii) (p s : string) :
  starts_with p s = true ->
  JsLex.contains c p = true -> JsLex.contains c s = true.
Proof.
  revert s. induction p as [|a p IH]; intros s Hstart Hc; [discriminate |].
  destruct s as [|b s]; [discriminate |].
  cbn [starts_with] in Hstart. apply andb_true_iff in Hstart as [Hab Hrest].
  apply Ascii.eqb_eq in Hab. subst b.
  cbn [JsLex.contains] in *. apply orb_true_iff in Hc as [Hc | Hc].
  - rewrite Hc. reflexivity.
  - rewrite (IH s Hrest Hc). apply orb_true_r.
Qed.

Lemma occurs_contains (c : ascii) (p s : string) :
  occurs p s = true ->
  JsLex.contains c p = true -> JsLex.contains c s = true.
Proof.
  intros Hocc Hc. induction s as [|b s IH].
  - cbn [occurs] in Hocc. rewrite orb_false_r in Hocc.
    destruct p; discriminate.
  - cbn [occurs] in Hocc. apply orb_true_iff in Hocc as [Hstart | Hlater].
    + exact (starts_with_contains c p _ Hstart Hc).
    + cbn [JsLex.contains]. rewrite (IH Hlater). apply orb_true_r.
Qed.

(** A text that holds the separator splits into two pieces at least. *)
Lemma split_on_two (c : ascii) (s : string) :
  JsLex.contains c s = true ->
  exists a b r, split_on c s = a :: b :: r.
Proof.
  induction s as [|x s IH]; [discriminate |].
  cbn [JsLex.contains split_on]. destruct (Ascii.eqb x c) eqn:E.
  - intros _. destruct s as [|y s]; [cbn; eauto |].
    destruct (split_on c (String y s)) as [|q r] eqn:Es; [| eauto].
    cbn [split_on] in Es. destruct (Ascii.eqb y c); [discriminate |].
    destruct (split_on c s); discriminate.
  - cbn [orb]. intros Hc. destruct (IH Hc) as (a & b & r & ->). eauto.
Qed.

(** On a line that holds one of the markers, [line.split(':')[1]] exists. *)
Lemma field1_returns (marker line : string) :
  occurs marker line = true ->
  JsLex.contains ":"%char marker = true ->
  exists f, field1 line = Ret f.
Proof.
  intros Hocc Hcolon.
  destruct (split_on_two _ _ (occurs_contains _ _ _ Hocc Hcolon))
    as (a & b & r & Hsplit).
  unfold field1, item. rewrite Hsplit. cbn. eauto.
Qed.

(** A line that is not a word-count line never makes the loop body raise. *)
Lemma metric_step_returns (metrics : gmap string string) (line : string) :
  occurs "Word Count:" line = false ->
  exists m, metric_step metrics line = Ret m.
Proof.
  intros Hwords. unfold metric_step. rewrite Hwords.
  destruct (occurs "Total Links:" line) eqn:E1.
  { destruct (field1_returns _ _ E1 eq_refl) as [f ->]. cbn. eauto. }
  destruct (occurs "Total Load Time:" line) eqn:E2.
  { destruct (field1_returns _ _ E2 eq_refl) as [f ->]. cbn. eauto. }
  destruct (occurs "Total DOM Elements:" line) eqn:E3.
  { destruct (field1_returns _ _ E3 eq_refl) as [f ->]. cbn. eauto. }
  eauto.
Qed.

(** What the loop body can raise. *)
Lemma metric_step_raises (metrics : gmap string string) (line : string) (e : exn) :
  metric_step metrics line = Raise e ->
  e = PyException "IndexError" "list index out of range"
  /\ occurs "Word Count:" line = true.
Proof.
  destruct (occurs "Word Count:" line) eqn:Hwords.
  - unfold metric_step. rewrite Hwords.
    destruct (field1_returns _ _ Hwords eq_refl) as [f ->].
    cbn [and_then]. unfold item.
    destruct (nth_error (split_ws (PyStr.strip f)) 0); cbn [and_then];
      [discriminate | intros [= <-]; auto].
  - destruct (metric_step_returns metrics line Hwords) as [m ->]. discriminate.
Qed.

(** X22: the scan of a report raises nothing but an [IndexError], and only
    on a line that holds [Word Count:]; a report without such a line is
    always scanned to the end. *)
Theorem extract_metrics_raises_only_on_word_count (output : string) :
  (forall e,
      extract_metrics output = Raise e ->
      e = PyException "IndexError" "list index out of range"
      /\ exists line,
           line ∈ PyStr.split_nl output /\ occurs "Word Count:" line = true)
  /\ ((forall line,
          line ∈ PyStr.split_nl output -> occurs "Word Count:" line = false) ->
      exists m, extract_metrics output = Ret m).
Proof.
  unfold extract_metrics.
  generalize (∅ : gmap string string) as metrics.
  induction (PyStr.split_nl output) as [|line rest IH]; intros metrics.
  - split; [discriminate | eauto].
  - cbn [metric_loop]. split.
    + intros e. destruct (metric_step metrics line) as [m|e'] eqn:Hstep;
        cbn [and_then].
      * intros Hrest. destruct (IH m) as [Hraise _].
        destruct (Hraise e Hrest) as (He & l & Hin & Hocc).
        split; [exact He |]. exists l. split; [right; exact Hin | exact Hocc].
      * intros [= <-]. destruct (metric_step_raises _ _ _ Hstep) as [He Hocc].
        split; [exact He |]. exists line. split; [left | exact Hocc].
    + intros Hnone.
      destruct (metric_step_returns metrics line) as [m ->].
      { apply Hnone. left. }
      cbn [and_then]. destruct (IH m) as [_ Hreturn].
      apply Hreturn. intros l Hin. apply Hnone. right. exact Hin.
Qed.

(** Taking the commas out leaves no comma. *)
Lemma replace_comma_free (s : string) :
  JsLex.contains ","%char (replace "," EmptyString s) = false.
Proof.
  unfold replace. induction s as [|a s IH]; [reflexivity |].
  cbn [replace_from starts_with String.length Nat.sub].
  destruct (Ascii.eqb "," a) eqn:E; cbn [andb].
  - exact IH.
  - cbn [JsLex.contains]. rewrite IH, orb_false_r.
    rewrite Ascii.eqb_sym. exact E.
Qed.

Lemma metric_step_tidy (metrics m : gmap string string) (line : string) :
  tidy metrics -> metric_step metrics line = Ret m -> tidy m.
Proof.
  intros (Hdom & Hwords & Helements). unfold metric_step.
  destruct (occurs "Word Count:" line).
  { destruct (field1 line) as [f|e]; [| discriminate]. cbn [and_then].
    destruct (item 0 (split_ws (PyStr.strip f))) as [x|e]; [| discriminate].
    cbn [and_then]. intros [= <-]. repeat split.
    - rewrite dom_insert. apply union_subseteq. split; [| exact Hdom].
      apply singleton_subseteq_l.
      rewrite !elem_of_union, !elem_of_singleton. tauto.
    - intros v. rewrite lookup_insert_eq. intros [= <-].
      apply replace_comma_free.
    - intros v. rewrite lookup_insert_ne by discriminate. apply Helements. }
  destruct (occurs "Total Links:" line).
  { destruct (field1 line) as [f|e]; [| discriminate]. cbn [and_then].
    intros [= <-]. repeat split.
    - rewrite dom_insert. apply union_subseteq. split; [| exact Hdom].
      apply singleton_subseteq_l.
      rewrite !elem_of_union, !elem_of_singleton. tauto.
    - intros v. rewrite lookup_insert_ne by discriminate. apply Hwords.
    - intros v. rewrite lookup_insert_ne by discriminate. apply Helements. }
  destruct (occurs "Total Load Time:" line).
  { destruct (field1 line) as [f|e]; [| discriminate]. cbn [and_then].
    intros [= <-]. repeat split.
    - rewrite dom_insert. apply union_subseteq. split; [| exact Hdom].
      apply singleton_subseteq_l.
      rewrite !elem_of_union, !elem_of_singleton. tauto.
    - intros v. rewrite lookup_insert_ne by discriminate. apply Hwords.
    - intros v. rewrite lookup_insert_ne by discriminate. apply Helements. }
  destruct (occurs "Total DOM Elements:" line).
  { destruct (field1 line) as [f|e]; [| discriminate]. cbn [and_then].
    intros [= <-]. repeat split.
    - rewrite dom_insert. apply union_subseteq. split; [| exact Hdom].
      apply singleton_subseteq_l.
      rewrite !elem_of_union, !elem_of_singleton. tauto.
    - intros v. rewrite lookup_insert_ne by discriminate. apply Hwords.
    - intros v. rewrite lookup_insert_eq. intros [= <-].
      apply replace_comma_free. }
  intros [= <-]. repeat split; assumption.
Qed.

Lemma metric_loop_tidy (lines : list string) :
  forall metrics m,
    tidy metrics -> metric_loop metrics lines = Ret m -> tidy m.
Proof.
  induction lines as [|line rest IH]; intros metrics m Htidy.
  - intros [= <-]. exact Htidy.
  - cbn [metric_loop].
    destruct (metric_step metrics line) as [m1|e] eqn:Hstep; [| discriminate].
    cbn [and_then]. apply IH. exact (metric_step_tidy _ _ _ Htidy Hstep).
Qed.

(** X23: the figures a scan returns are filed under [words], [links],
    [load_time] and [elements] and under no other key, and the values under
    [words] and [elements] hold no comma. *)
Theorem extract_metrics_tidy (output : string) (m : gmap string string) :
  extract_metrics output = Ret m ->
  dom m ⊆ ({["words"; "links"; "load_time"; "elements"]} : gset string)
  /\ (forall v, m !! "words" = Some v -> JsLex.contains ","%char v = false)
  /\ (forall v, m !! "elements" = Some v -> JsLex.contains ","%char v = false).
Proof.
  intros Hret. apply (metric_loop_tidy (PyStr.split_nl output) ∅ m); [| exact Hret].
  repeat split; [set_solver | intros v; rewrite lookup_empty; discriminate ..].
Qed.

(** A line that names no figure leaves the figures as they are. *)
Lemma metric_step_skips (metrics : gmap string string) (line : string) :
  names_figure line = false -> metric_step metrics line = Ret metrics.
Proof.
  unfold names_figure, metric_step. intros H.
  apply orb_false_iff in H as [H H4]. apply orb_false_iff in H as [H H3].
  apply orb_false_iff in H as [H1 H2]. rewrite H1, H2, H3, H4. reflexivity.
Qed.

(** X24: lines that name no figure are passed over: the scan of a report
    gives what the scan of its figure lines alone gives, in particular no
    figure at all, and no exception, when no line names one. *)
Theorem extract_metrics_skips_other_lines (output : string) :
  extract_metrics output
  = metric_loop ∅ (filter (fun line => names_figure line = true)
                     (PyStr.split_nl output))
  /\ ((forall line,
          line ∈ PyStr.split_nl output -> names_figure line = false) ->
      extract_metrics output = Ret ∅).
Proof.
  unfold extract_metrics.
  generalize (∅ : gmap string string) as metrics.
  induction (PyStr.split_nl output) as [|line rest IH]; intros metrics.
  - split; reflexivity.
  - destruct (IH metrics) as [_ Hnone]. split.
    + destruct (names_figure line) eqn:Hname.
      * rewrite filter_cons_True by exact Hname.
        cbn [metric_loop].
        destruct (metric_step metrics line) as [m1|e]; cbn [and_then];
          [apply IH | reflexivity].
      * rewrite filter_cons_False by congruence.
        cbn [metric_loop]. rewrite (metric_step_skips _ _ Hname).
        cbn [and_then]. apply IH.
    + intros Hall. cbn [metric_loop].
      rewrite (metric_step_skips metrics line) by (apply Hall; left).
      cbn [and_then]. apply Hnone. intros l Hin. apply Hall. right. exact Hin.
Qed.

Lemma starts_with_append (p s : string) : starts_with p (p +:+ s) = true.
Proof.
  induction p as [|a p IH]; [reflexivity |].
  change (String a p +:+ s) with (String a (p +:+ s)).
  cbn [starts_with]. rewrite Ascii.eqb_refl, IH. reflexivity.
Qed.

Lemma occurs_append (a p s : string) : occurs p (a +:+ p +:+ s) = true.
Proof.
  induction a as [|x a IH].
  - change (EmptyString +:+ p +:+ s) with (p +:+ s).
    destruct (p +:+ s) eqn:E; cbn [occurs]; rewrite <- E;
      rewrite starts_with_append; reflexivity.
  - change (String x a +:+ p +:+ s) with (String x (a +:+ p +:+ s)).
    cbn [occurs]. rewrite IH. apply orb_true_r.
Qed.

Lemma split_on_whole (c : ascii) (s : string) :
  JsLex.contains c s = false -> split_on c s = [s].
Proof.
  induction s as [|x s IH]; [reflexivity |].
  cbn [JsLex.contains split_on]. intros H.
  apply orb_false_iff in H as [Hx Hs]. rewrite Hx, (IH Hs). reflexivity.
Qed.

Lemma split_on_first (c : ascii) (a b : string) :
  JsLex.contains c a = false ->
  split_on c (a +:+ String c b) = a :: split_on c b.
Proof.
  induction a as [|x a IH]; intros H.
  - change (EmptyString +:+ String c b) with (String c b).
    cbn [split_on]. rewrite Ascii.eqb_refl. reflexivity.
  - cbn [JsLex.contains] in H. apply orb_false_iff in H as [Hx Ha].
    change (String x a +:+ String c b) with (String x (a +:+ String c b)).
    cbn [split_on]. rewrite Hx, (IH Ha). reflexivity.
Qed.

Lemma contains_append (c : ascii) (a b : string) :
  JsLex.contains c (a +:+ b) = JsLex.contains c a || JsLex.contains c b.
Proof.
  induction a as [|x a IH]; [reflexivity |].
  change (String x a +:+ b) with (String x (a +:+ b)).
  cbn [JsLex.contains]. rewrite IH, orb_assoc. reflexivity.
Qed.

(** X25: on a line whose only colon is the one of [Total Links:], and that
    is no word-count line, the figure filed under [links] is the text after
    the marker, stripped; the text before the marker does not matter. *)
Theorem links_line_is_read
    (metrics : gmap string string) (before value : string) :
  JsLex.contains ":"%char before = false ->
  JsLex.contains ":"%char value = false ->
  occurs "Word Count:" (before +:+ "Total Links:" +:+ value) = false ->
  metric_step metrics (before +:+ "Total Links:" +:+ value)
  = Ret (<["links" := PyStr.strip value]> metrics).
Proof.
  intros Hbefore Hvalue Hwords. unfold metric_step.
  rewrite Hwords, occurs_append.
  assert (Hline : before +:+ "Total Links:" +:+ value
                  = (before +:+ "Total Links") +:+ String ":"%char value).
  { rewrite append_assoc. reflexivity. }
  unfold field1. rewrite Hline, split_on_first, (split_on_whole _ _ Hvalue).
  - reflexivity.
  - rewrite contains_append, Hbefore. reflexivity.
Qed.

End Metrics.

(** X23 at work: a report with figures that carry commas. *)
Lemma extract_metrics_tidy_witness :
  Presenter.extract_metrics ("   Word Count: 1,234 words" +:+ PyStr.nl
                   +:+ "   Total DOM Elements: 1,001")
  = Ret (<["elements" := "1001"]> (<["words" := "1234"]> ∅))
  /\ JsLex.contains ","%char "1234" = false.
Proof.
  assert (H : Presenter.extract_metrics ("   Word Count: 1,234 words" +:+ PyStr.nl
                               +:+ "   Total DOM Elements: 1,001")
              = Ret (<["elements" := "1001"]> (<["words" := "1234"]> ∅))).
  { vm_compute. reflexivity. }
  split; [exact H |].
  destruct (extract_metrics_tidy _ _ H) as (_ & Hwords & _).
  apply Hwords. vm_compute. reflexivity.
Defined.

(** X25 at work: the line the research script prints for the links. *)
Lemma links_line_is_read_witness :
  Presenter.metric_step ∅ ("   " +:+ "Total Links:" +:+ " 12")
  = Ret (<["links" := PyStr.strip " 12"]> ∅).
Proof.
  apply (links_line_is_read ∅ "   " " 12"); reflexivity.
Defined.
